(** * PyTrendFollow: the IQFeed data provider and the provider factory

    A shallow embedding of [data/iqfeed_provider.py] and
    [data/providers_factory.py].

    Python objects are embedded as follows.
    - Exceptions are values of [exn]; a computation that may raise returns
      [res A].  Only classes deriving from [Exception] occur: they are what
      the collaborators (pyiqfeed, pandas, the store) raise, and what
      [except Exception] catches.
    - Effects on the outside world (vendor sessions, the store, the log) are
      recorded in a trace of [event]s; what the outside world answers is
      given by an environment [Env] whose answers may depend on the whole
      history.
    - A pandas DataFrame is a [frame]: an index and a list of named columns
      (order and duplicates matter, so it is an association list).
    - The module-level dict [columns_mapping] lives in the shared state, its
      inner dicts are [gmap]s that [_format_other] updates in place. *)

From Stdlib Require Import ZArith String Ascii List Bool Lia.
From stdpp Require Import base option list strings gmap pretty.

Local Open Scope Z_scope.
Local Open Scope string_scope.

(** ** Python values used by the module *)

Module Py.

(** Exception classes that can be raised inside the module.  The two
    pyiqfeed errors are the ones [download_table] names; the others stand
    for the builtin classes and for anything else a collaborator raises. *)
Inductive exn : Type :=
| NoDataError
| UnauthorizedError
| ConnectionException (msg : string)
| AttributeError (msg : string)
| KeyError (key : string)
| TypeError (msg : string)
| ValueError (msg : string)
| IndexError (msg : string)
| Exception (msg : string)
| OtherError (cls msg : string).

(** [str(e)], as used by ['... %s' % e]. *)
Definition exn_str (e : exn) : string :=
  match e with
  | NoDataError => "" | UnauthorizedError => ""
  | ConnectionException m | AttributeError m | TypeError m
  | ValueError m | IndexError m | Exception m | OtherError _ m => m
  | KeyError k => "'" +:+ k +:+ "'"
  end.

Inductive res (A : Type) : Type :=
| Ret (a : A)
| Raise (e : exn).
Arguments Ret {A} a.
Arguments Raise {A} e.

(** [s[lo:hi]] for non-negative bounds: slicing never raises, it
    truncates at the end of the string. *)
Definition slice (lo hi : nat) (s : string) : string :=
  substring lo (hi - lo) s.

(** [int(s)] on a string: an optional sign followed by decimal digits
    ([ValueError] otherwise).  Contract labels are the only strings the
    module converts, and they are printed integers. *)
Definition digit_of (a : ascii) : option Z :=
  let n := nat_of_ascii a in
  if ((48 <=? n)%nat && (n <=? 57)%nat)%bool
  then Some (Z.of_nat (n - 48)) else None.

Fixpoint parse_digits (acc : Z) (s : string) : option Z :=
  match s with
  | EmptyString => Some acc
  | String a s' =>
      match digit_of a with
      | Some d => parse_digits (10 * acc + d) s'
      | None => None
      end
  end.

Definition int_of_str (s : string) : option Z :=
  match s with
  | EmptyString => None
  | String "-" (String _ _ as s') => Z.opp <$> parse_digits 0 s'
  | String "+" (String _ _ as s') => parse_digits 0 s'
  | _ => parse_digits 0 s
  end.

End Py.
Export Py.

(** ** [data/providers_factory.py] *)

Module Factory.

(** What [get_provider] hands back: an instance of one of the three
    provider classes.  The classes themselves live in the modules that the
    function imports. *)
Inductive provider : Type :=
| QuandlProvider
| IBProvider
| IQFeedProvider.

(** The module that defines each provider class. *)
Definition provider_module (p : provider) : string :=
  match p with
  | QuandlProvider => "data.quandl_provider"
  | IBProvider => "data.ib_provider"
  | IQFeedProvider => "data.iqfeed_provider"
  end.

(** [get_provider(name)]: the list holds the modules imported by the call,
    in the order of the [from ... import] statements executed. *)
Definition get_provider (name : string) : list string * res provider :=
  if String.eqb name "quandl" then
    (["data.quandl_provider"], Ret QuandlProvider)
  else if String.eqb name "ib" then
    (["data.ib_provider"], Ret IBProvider)
  else if String.eqb name "iqfeed" then
    (["data.iqfeed_provider"], Ret IQFeedProvider)
  else
    ([], Raise (Exception ("Unknown data provider name: " +:+ name))).

End Factory.

(** ** pandas tables *)

Module Pandas.

(** The scalars stored in a table (timestamps, floats, integers).  Float
    arithmetic is kept abstract: the module only ever multiplies a column
    by a factor and stores integers. *)
Class Scalars (cell : Type) : Type := {
  int_cell : Z → cell;            (* an integer scalar *)
  mul_cell : cell → cell → cell   (* elementwise [*] *)
}.

Section Frame.
Context {cell : Type} `{!Scalars cell}.

(** A DataFrame: the index (with its optional name) and the columns in
    order.  Column labels may repeat, as in pandas. *)
Record frame : Type := Frame {
  index_name : option string;
  index : list cell;
  columns : list (string * list cell)
}.

Definition column_names (df : frame) : list string := (columns df).*1.
Definition nrows (df : frame) : nat := length (index df).
Definition has_column (n : string) (df : frame) : bool :=
  bool_decide (n ∈ column_names df).

(** Every column is as long as the index. *)
Definition well_formed (df : frame) : Prop :=
  Forall (λ c, length c.2 = nrows df) (columns df).

(** [pd.DataFrame(data={...}, index=...)]: an unnamed index. *)
Definition DataFrame (data : list (string * list cell)) (idx : list cell)
  : frame :=
  {| index_name := None; index := idx; columns := data |}.

(** [df.iloc[::-1]]: the rows in reverse order. *)
Definition iloc_reversed (df : frame) : frame :=
  {| index_name := index_name df;
     index := rev (index df);
     columns := (λ c, (c.1, rev c.2)) <$> columns df |}.

(** [df.index = df.index.rename(n)] *)
Definition rename_index (n : string) (df : frame) : frame :=
  {| index_name := Some n; index := index df; columns := columns df |}.

(** The fresh [RangeIndex] 0 .. n-1. *)
Definition range_index (n : nat) : list cell :=
  (λ i, int_cell (Z.of_nat i)) <$> seq 0 n.

(** [df.reset_index(inplace=True)]: the index becomes the first column,
    under its name (["index"], or ["level_0"] when that is taken, for an
    unnamed index); inserting a label that exists raises [ValueError]. *)
Definition reset_index (df : frame) : res frame :=
  let name :=
    match index_name df with
    | Some n => n
    | None => if has_column "index" df then "level_0" else "index"
    end in
  if has_column name df
  then Raise (ValueError ("cannot insert " +:+ name +:+ ", already exists"))
  else Ret {| index_name := None;
              index := range_index (nrows df);
              columns := (name, index df) :: columns df |}.

(** [df[n] = vals]: overwrite the column(s) labelled [n], or append a
    new last column. *)
Definition setitem (n : string) (vals : list cell) (df : frame) : frame :=
  {| index_name := index_name df;
     index := index df;
     columns :=
       if has_column n df
       then (λ c, if decide (c.1 = n) then (n, vals) else c) <$> columns df
       else (columns df ++ [(n, vals)])%list |}.

(** [pd.Series(v, index=df.index)]: the scalar repeated on every row. *)
Definition Series_const (v : cell) (df : frame) : list cell :=
  replicate (nrows df) v.

(** The columns labelled [n], in table order. *)
Definition columns_named (n : string) (df : frame)
  : list (string * list cell) :=
  filter (λ c, c.1 = n) (columns df).

(** [df[[n1, ..., nk]].copy()]: the listed columns in the listed order;
    a label that is not a column raises [KeyError]. *)
Fixpoint select (names : list string) (df : frame)
  : res (list (string * list cell)) :=
  match names with
  | [] => Ret []
  | n :: ns =>
      match columns_named n df with
      | [] => Raise (KeyError n)
      | cs =>
          match select ns df with
          | Ret rest => Ret (cs ++ rest)%list
          | Raise e => Raise e
          end
      end
  end.

Definition getitem_list (names : list string) (df : frame) : res frame :=
  match select names df with
  | Ret cs => Ret {| index_name := index_name df;
                     index := index df; columns := cs |}
  | Raise e => Raise e
  end.

(** [df.rename(columns=mapping, inplace=True)]: labels that are keys of
    the mapping are replaced, the others stay. *)
Definition rename_columns (mapping : gmap string string) (df : frame)
  : frame :=
  {| index_name := index_name df;
     index := index df;
     columns := (λ c, (default c.1 (mapping !! c.1), c.2)) <$> columns df |}.

(** [df[n] *= k] *)
Definition imul_column (n : string) (k : cell) (df : frame) : res frame :=
  if has_column n df
  then Ret {| index_name := index_name df;
              index := index df;
              columns :=
                (λ c : string * list cell,
                   if decide (c.1 = n)
                   then (n, (λ x, mul_cell x k) <$> c.2) else c)
                  <$> columns df |}
  else Raise (KeyError n).

(** [df[[n1, ..., nk]] = value] for a table [value]: its columns are
    assigned to the labels position by position. *)
Definition setitem_list (names : list string) (value : frame) (df : frame)
  : res frame :=
  if decide (length names = length (columns value))
  then Ret (fold_left (λ d kv, setitem kv.1 (kv.2).2 d)
                      (zip names (columns value)) df)
  else Raise (ValueError "Columns must be same length as key").

End Frame.
Global Arguments frame cell : clear implicits.

End Pandas.
Export Pandas.

(** ** Collaborators of the provider *)

Module QuotesType.
(** Modelled from the spec: the enumeration [QuotesType] of
    [core.contract_store]; a series is futures, currency or other. *)
Inductive t : Type := futures | currency | others.
End QuotesType.

(** A contract label as the walk carries it: the integer YYYYMM, or its
    text ([download_instrument] starts a full download from
    [str(instrument.first_contract)]). *)
Inductive label : Type :=
| IntLabel (n : Z)
| StrLabel (s : string).

(** [int(c)] *)
Definition int_of_label (c : label) : res Z :=
  match c with
  | IntLabel n => Ret n
  | StrLabel s =>
      match int_of_str s with
      | Some n => Ret n
      | None => Raise (ValueError "invalid literal for int() with base 10")
      end
  end.

(** [int(c/100)]: true division of a number, truncated towards zero; the
    quotient of a six-digit label is computed exactly by the float division.
    A string has no [/]. *)
Definition year_of_label (c : label) : res Z :=
  match c with
  | IntLabel n => Ret (Z.quot n 100)
  | StrLabel _ =>
      Raise (TypeError "unsupported operand type(s) for /: 'str' and 'int'")
  end.

(** The helpers [contract_to_tuple] (a label decomposed into year and
    month) and [cbot_month_code] (the letter of a month) are imported from
    [core.utility]; the provider is verified for any such pair of
    functions. *)
Class Utility : Type := {
  contract_to_tuple : label → Z * Z;
  cbot_month_code : Z → string
}.

Module Instrument.
(** The attributes and methods of an instrument that the provider uses. *)
Record t : Type := {
  name : string;
  iqfeed_symbol : string;
  exchange : string;
  quandl_database : string;
  quandl_symbol : string;
  first_contract : Z;
  roll_progression : list Z;        (* the values of the Series *)
  next_contract : label → label
}.
End Instrument.

Module Currency.
Record t {cell : Type} : Type := {
  quandl_database : string;
  quandl_symbol : string;
  quandl_rate : frame cell → res (frame cell)
}.
Global Arguments t cell : clear implicits.
End Currency.

Module Spot.
Record t {cell : Type} : Type := {
  quandl_database : string;
  quandl_symbol : string;
  quandl_column : string;
  multiplier : cell
}.
Global Arguments t cell : clear implicits.
End Spot.

(** ** The outside world *)

Module World.

Inductive level : Type := DEBUG | INFO | WARNING.
Inductive conn : Type := HistoryConn | LookupConn.

(** The addressing key of a store record. *)
Definition store_key : Type := string * QuotesType.t * string.

Section Events.
Context {cell : Type}.

(** One row of [request_daily_data]'s answer, with pyiqfeed's field
    names. *)
Record bar : Type := {
  date : cell; open_p : cell; high_p : cell;
  low_p : cell; close_p : cell; prd_vlm : cell
}.

Inductive event : Type :=
| Log (lvl : level) (msg : string)
| Connect (c : conn)
| Disconnect (c : conn)
| RequestDailyData (ticker : string) (num_days : Z)
| StoreUpdate (key : store_key) (table : option (frame cell))
| StoreDelete (key : store_key).

(** What the vendor, the store and the clock answer, given everything
    that happened before the call. *)
Record Env : Type := {
  connect_reply : conn → list event → res unit;
  disconnect_reply : conn → list event → res unit;
  daily_data_reply : string → Z → list event → res (list bar);
  store_update_reply :
    store_key → option (frame cell) → list event → res unit;
  store_delete_reply : store_key → list event → res unit;
  now_year : list event → Z
}.

(** The provider instance and the module-level state it shares.  The table
    [columns_mapping] is imported from [core.contract_store]; of it the
    provider reads the two inner dicts below, whose content is arbitrary. *)
Record State : Type := {
  hist_conn : bool;       (* [self.hist_conn] is bound *)
  lookup_conn : bool;     (* [self.lookup_conn] is bound *)
  (* [columns_mapping[('quandl', QuotesType.currency.value)]] *)
  mapping_currency : gmap string string;
  (* [columns_mapping[('quandl', QuotesType.others.value)]] *)
  mapping_others : gmap string string;
  trace : list event
}.

Definition with_trace (t : list event) (st : State) : State :=
  {| hist_conn := hist_conn st; lookup_conn := lookup_conn st;
     mapping_currency := mapping_currency st;
     mapping_others := mapping_others st; trace := t |}.

Definition with_mapping_others (m : gmap string string) (st : State)
  : State :=
  {| hist_conn := hist_conn st; lookup_conn := lookup_conn st;
     mapping_currency := mapping_currency st;
     mapping_others := m; trace := trace st |}.

Definition with_conns (h l : bool) (st : State) : State :=
  {| hist_conn := h; lookup_conn := l;
     mapping_currency := mapping_currency st;
     mapping_others := mapping_others st; trace := trace st |}.

(** Computations of the provider: they may raise, and they change the
    state also when they do. *)
Definition M (A : Type) : Type := State → res A * State.

Definition ret {A} (a : A) : M A := λ st, (Ret a, st).
Definition raise {A} (e : exn) : M A := λ st, (Raise e, st).
Definition bind {A B} (m : M A) (k : A → M B) : M B :=
  λ st, match m st with
        | (Ret a, st') => k a st'
        | (Raise e, st') => (Raise e, st')
        end.
Definition lift {A} (r : res A) : M A := λ st, (r, st).

(** [try: body except Exception as e: handler(e)] *)
Definition try_except {A} (body : M A) (handler : exn → M A) : M A :=
  λ st, match body st with
        | (Ret a, st') => (Ret a, st')
        | (Raise e, st') => handler e st'
        end.

(** An effect on the outside world: it is recorded, and the world
    answers from the history before it. *)
Definition call {A} (ev : event) (reply : list event → res A) : M A :=
  λ st, (reply (trace st), with_trace (trace st ++ [ev])%list st).

Definition log (lvl : level) (msg : string) : M unit :=
  call (Log lvl msg) (λ _, Ret ()).

(** The events a computation added to the trace. *)
Definition emitted (st st' : State) : list event :=
  drop (length (trace st)) (trace st').

End Events.
Global Arguments bar cell : clear implicits.
Global Arguments event cell : clear implicits.
Global Arguments Env cell : clear implicits.
Global Arguments State cell : clear implicits.
Global Arguments M cell A : clear implicits.

End World.
Export World.

Notation "'let*' x ':=' m 'in' k" := (bind m (λ x, k))
  (at level 10, x pattern, m at level 100, k at level 200,
   format "'[v' 'let*'  x  ':='  m  'in' '/' k ']'").
Notation "m '>>' k" := (bind m (λ _, k))
  (at level 100, k at level 200, right associativity,
   format "'[v' m  '>>' '/' k ']'").

(** ** [data/iqfeed_provider.py]: class [IQFeedProvider] *)

Module IQFeedProvider.

(** [self.library], bound once by [__init__]. *)
Definition library : string := "iqfeed".

Section Provider.
Context {cell : Type} `{!Scalars cell} `{!Utility} (E : Env cell).

(** The keyword arguments [download_table] looks at: each is absent or
    bound to an object of its collaborator's kind. *)
Record kwargs : Type := {
  kw_col : option string;
  kw_currency : option (Currency.t cell);
  kw_spot : option (Spot.t cell);
  kw_instrument : option Instrument.t;
  kw_contract : option label
}.

Definition no_kwargs : kwargs :=
  {| kw_col := None; kw_currency := None; kw_spot := None;
     kw_instrument := None; kw_contract := None |}.

(** *** Sessions *)

Definition connect : M cell bool :=
  λ st,
    (* self.hist_conn = iq.HistoryConn(...); listener; connect() *)
    let st1 := with_conns true (lookup_conn st) st in
    match call (Connect HistoryConn) (connect_reply E HistoryConn) st1 with
    | (Raise e, st2) => (Raise e, st2)
    | (Ret _, st2) =>
        (* self.lookup_conn = iq.LookupConn(...); listener; connect() *)
        let st3 := with_conns true true st2 in
        match call (Connect LookupConn) (connect_reply E LookupConn) st3 with
        | (Raise e, st4) => (Raise e, st4)
        | (Ret _, st4) => (Ret true, st4)
        end
    end.

(** [self.x.method()] on an attribute that was never bound. *)
Definition getattr_self (bound : State cell → bool) (attr : string)
  : M cell unit :=
  λ st, if bound st then (Ret (), st)
        else (Raise (AttributeError
                       ("'IQFeedProvider' object has no attribute '"
                          +:+ attr +:+ "'")), st).

Definition disconnect : M cell unit :=
  getattr_self hist_conn "hist_conn" >>
  call (Disconnect HistoryConn) (disconnect_reply E HistoryConn) >>
  getattr_self lookup_conn "lookup_conn" >>
  call (Disconnect LookupConn) (disconnect_reply E LookupConn).

(** *** Formatters *)

Definition _format_future (data : option (frame cell))
    (instrument : Instrument.t) (contract : option label)
  : res (option (frame cell)) :=
  match data with
  | None => Ret None
  | Some data =>
      let data := rename_index "date" data in
      match reset_index data with
      | Raise e => Raise e
      | Ret data =>
          let int_contract :=
            match contract with
            | Some c => int_of_label c
            | None => Raise (TypeError
                "int() argument must be a string or a number, not 'NoneType'")
            end in
          match int_contract with
          | Raise e => Raise e
          | Ret k =>
              let data :=
                setitem "contract" (Series_const (int_cell k) data) data in
              match getitem_list
                      ["date"; "contract"; "close"; "high"; "low";
                       "open"; "volume"] data with
              | Raise e => Raise e
              | Ret out => Ret (Some out)
              end
          end
      end
  end.

Definition _format_currency (data : option (frame cell))
    (currency : Currency.t cell) : M cell (option (frame cell)) :=
  match data with
  | None => ret None
  | Some data =>
      let* data := lift (reset_index data) in
      λ st,
        (let data := rename_columns (mapping_currency st) data in
         let* cols := lift (getitem_list ["rate"; "high"; "low"] data) in
         let* rates := lift (Currency.quandl_rate currency cols) in
         let* data := lift (setitem_list ["rate"; "high"; "low"] rates data) in
         let* out := lift (getitem_list ["date"; "rate"; "high"; "low"] data) in
         ret (Some out)) st
  end.

Definition _format_other (column : string) (data : option (frame cell))
    (spot : option (Spot.t cell)) : M cell (option (frame cell)) :=
  match data with
  | None => ret None
  | Some data =>
      let* data := lift (reset_index data) in
      λ st,
        (* mapping = columns_mapping[...]; mapping[column] = 'close':
           the dict inside the shared table is updated in place *)
        let mapping := <[column := "close"]> (mapping_others st) in
        let st := with_mapping_others mapping st in
        (let data := rename_columns mapping data in
         let* data :=
           match spot with
           | Some spot => lift (imul_column "close" (Spot.multiplier spot) data)
           | None => ret data
           end in
         let* out := lift (getitem_list ["date"; "close"] data) in
         ret (Some out)) st
  end.

(** *** Downloading one table *)

Definition wrong_arguments : exn :=
  TypeError "the format function got unexpected or missing arguments".

(** [formnat_fn(data=data)], where [formnat_fn] is
    [self.quotes_formats[q_type]] with the keywords bound by [partial]:
    [column] when ['col'] was given, [currency], [spot], and
    [instrument] with [contract] when ['instrument'] was given.  Python
    raises [TypeError] when the bound keywords do not fit the
    signature of the format function. *)
Definition formnat_fn (q_type : QuotesType.t) (kw : kwargs)
    (data : frame cell) : M cell (option (frame cell)) :=
  match q_type with
  | QuotesType.futures =>
      match kw_col kw, kw_currency kw, kw_spot kw, kw_instrument kw with
      | None, None, None, Some instrument =>
          lift (_format_future (Some data) instrument (kw_contract kw))
      | _, _, _, _ => raise wrong_arguments
      end
  | QuotesType.currency =>
      match kw_col kw, kw_currency kw, kw_spot kw, kw_instrument kw with
      | None, Some currency, None, None =>
          _format_currency (Some data) currency
      | _, _, _, _ => raise wrong_arguments
      end
  | QuotesType.others =>
      match kw_col kw, kw_currency kw, kw_instrument kw with
      | Some column, None, None =>
          _format_other column (Some data) (kw_spot kw)
      | _, _, _ => raise wrong_arguments
      end
  end.

(** [kwargs.get('instrument').exchange] *)
Definition instrument_exchange (kw : kwargs) : M cell string :=
  match kw_instrument kw with
  | Some instrument => ret (Instrument.exchange instrument)
  | None =>
      raise (AttributeError "'NoneType' object has no attribute 'exchange'")
  end.

(** The table assembled from the vendor's rows. *)
Definition fut_df (fut_daily : list (bar cell)) : frame cell :=
  DataFrame [("open", open_p <$> fut_daily);
             ("high", high_p <$> fut_daily);
             ("low", low_p <$> fut_daily);
             ("close", close_p <$> fut_daily);
             ("volume", prd_vlm <$> fut_daily)]
            (date <$> fut_daily).

(** The body of the [try] block. *)
Definition download_table_try (q_type : QuotesType.t)
    (database symbol db_symbol : string) (kw : kwargs) : M cell unit :=
  log INFO ("Downloading " +:+ symbol +:+ " from IQFeed") >>
  getattr_self hist_conn "hist_conn" >>
  let* fut_daily :=
    call (RequestDailyData symbol (255 * 3)%Z)
         (daily_data_reply E symbol (255 * 3)%Z) in
  log INFO ("Finished downloading " +:+ symbol +:+ " from IQFeed") >>
  let data := iloc_reversed (fut_df fut_daily) in
  let* exch := instrument_exchange kw in
  let store_symbol := exch +:+ "_" +:+ db_symbol in
  let key := (library, q_type, store_symbol) in
  let* table := formnat_fn q_type kw data in
  call (StoreUpdate key table) (store_update_reply E key table) >>
  log DEBUG ("Wrote data for " +:+ database +:+ "/" +:+ symbol).

(** The two [except] clauses, in order. *)
Definition download_table_except (symbol : string) (e : exn)
  : M cell bool :=
  match e with
  | NoDataError | UnauthorizedError =>
      log WARNING ("NoDataError for symbol " +:+ symbol) >> ret false
  | _ =>
      log WARNING ("Unexpected error occured: " +:+ exn_str e) >> ret false
  end.

Definition download_table (q_type : QuotesType.t)
    (database symbol : string) (db_symbol : option string) (kw : kwargs)
  : M cell bool :=
  let db_symbol := default symbol db_symbol in
  try_except
    (download_table_try q_type database symbol db_symbol kw >> ret true)
    (download_table_except symbol).

Definition download_contract (instrument : Instrument.t)
    (cont_name : label) : M cell bool :=
  let '(year, month) := contract_to_tuple cont_name in
  let api_symbol :=
    Instrument.iqfeed_symbol instrument +:+ cbot_month_code month
      +:+ slice 2 4 (pretty year) in
  download_table QuotesType.futures
    (Instrument.quandl_database instrument) api_symbol
    (Some (Instrument.iqfeed_symbol instrument))
    {| kw_col := None; kw_currency := None; kw_spot := None;
       kw_instrument := Some instrument; kw_contract := Some cont_name |}.

Definition download_currency (currency : Currency.t cell) : M cell bool :=
  let symbol := Currency.quandl_symbol currency in
  if String.eqb (slice 0 3 symbol) (slice 3 6 symbol) then ret true
  else
    download_table QuotesType.currency
      (Currency.quandl_database currency) symbol None
      {| kw_col := None; kw_currency := Some currency; kw_spot := None;
         kw_instrument := None; kw_contract := None |}.

Definition download_spot (spot : Spot.t cell) : M cell bool :=
  download_table QuotesType.others
    (Spot.quandl_database spot) (Spot.quandl_symbol spot) None
    {| kw_col := Some (Spot.quandl_column spot); kw_currency := None;
       kw_spot := None; kw_instrument := None; kw_contract := None |}.

(** *** Walking the chain of contracts *)

(** [int(c/100) >= datetime.datetime.now().year] *)
Definition year_reached (c : label) : M cell bool :=
  let* y := lift (year_of_label c) in
  λ st, (Ret (now_year E (trace st) <=? y)%Z, st).

(** One pass through the body of the [while] loop. *)
Definition walk_body (instrument : Instrument.t) (c : label)
    (fail_count : Z) : M cell (label * Z) :=
  let* ok := download_contract instrument c in
  let* fail_count :=
    if ok : bool then ret 0
    else
      let* reached := year_reached c in
      let fail_count :=
        if reached : bool then (fail_count + 1)%Z else fail_count in
      (* Just try one more time in case of a network error *)
      download_contract instrument c >>
      ret fail_count in
  ret (Instrument.next_contract instrument c, fail_count).

(** [while fail_count <= 12: ...].  The loop need not end, so it is run
    with fuel: [None] says that the fuel did not suffice, [Some] holds
    the variables at the exit of the loop. *)
Fixpoint walk (fuel : nat) (instrument : Instrument.t) (c : label)
    (fail_count : Z) : M cell (option (label * Z)) :=
  if (fail_count <=? 12)%Z then
    match fuel with
    | O => ret None
    | S fuel =>
        let* next := walk_body instrument c fail_count in
        walk fuel instrument next.1 next.2
    end
  else ret (Some (c, fail_count)).

(** [instrument.roll_progression().tail(1).iloc[0] - 100] *)
Definition recent_start (instrument : Instrument.t) : res label :=
  match last (Instrument.roll_progression instrument) with
  | Some c => Ret (IntLabel (c - 100)%Z)
  | None =>
      Raise (IndexError "single positional indexer is out-of-bounds")
  end.

Definition download_instrument (fuel : nat) (instrument : Instrument.t)
    (recent : bool) : M cell (option bool) :=
  let* ok := connect in
  if negb ok then
    log WARNING "Download failed: couldn't connect to IQFeed" >>
    raise (ConnectionException "Couldn't connect to IQFeed")
  else
    let* c :=
      if recent then lift (recent_start instrument)
      else ret (StrLabel (pretty (Instrument.first_contract instrument))) in
    log INFO ("Downloading contracts for instrument: "
                +:+ Instrument.name instrument) >>
    let* exit := walk fuel instrument c 0 in
    match exit with
    | None => ret None
    | Some _ =>
        log DEBUG ("More than 12 missing contracts in a row - ending the "
                     +:+ "downloading for the instrument "
                     +:+ Instrument.name instrument) >>
        disconnect >>
        ret (Some true)
    end.

(** *** Dropping tables *)

Definition drop_symbol (q_type : QuotesType.t) (database symbol : string)
  : M cell unit :=
  let key := (library, q_type, database +:+ "_" +:+ symbol) in
  call (StoreDelete key) (store_delete_reply E key).

Definition drop_instrument (instrument : Instrument.t) : M cell unit :=
  drop_symbol QuotesType.futures
    (Instrument.quandl_database instrument)
    (Instrument.quandl_symbol instrument).

Definition drop_currency (currency : Currency.t cell) : M cell unit :=
  drop_symbol QuotesType.currency
    (Currency.quandl_database currency) (Currency.quandl_symbol currency).

(** The key under which [download_contract] stores an instrument's
    tables ([store_symbol] in [download_table]), and the key that
    [drop_instrument] deletes. *)
Definition download_key (instrument : Instrument.t) : store_key :=
  (library, QuotesType.futures,
   Instrument.exchange instrument +:+ "_"
     +:+ Instrument.iqfeed_symbol instrument).

Definition drop_key (instrument : Instrument.t) : store_key :=
  (library, QuotesType.futures,
   Instrument.quandl_database instrument +:+ "_"
     +:+ Instrument.quandl_symbol instrument).

End Provider.
End IQFeedProvider.

(** ** Concrete collaborators, for running the embedding *)

Module Demo.
Import IQFeedProvider.

(** Integer scalars. *)
#[export] Instance Z_scalars : Scalars Z :=
  {| int_cell := id; mul_cell := Z.mul |}.

(** YYYYMM labels, with the CBOT month letters. *)
Definition month_letter (month : Z) : string :=
  slice (Z.to_nat (month - 1)) (Z.to_nat month) "FGHJKMNQUVXZ".

Definition label_number (c : label) : Z :=
  match int_of_label c with Ret n => n | Raise _ => 0 end.

#[export] Instance utility : Utility :=
  {| contract_to_tuple c := (label_number c / 100, label_number c `mod` 100)%Z;
     cbot_month_code := month_letter |}.

(** The successor of a YYYYMM label, month by month; it returns a number,
    whatever it is given. *)
Definition next_month (c : label) : label :=
  let n := label_number c in
  IntLabel (if (n `mod` 100 =? 12)%Z then n + 89 else n + 1)%Z.

Definition corn : Instrument.t :=
  {| Instrument.name := "corn";
     Instrument.iqfeed_symbol := "@C";
     Instrument.exchange := "CBOT";
     Instrument.quandl_database := "CME";
     Instrument.quandl_symbol := "C";
     Instrument.first_contract := 196003;
     Instrument.roll_progression := [202003; 202005; 202007];
     Instrument.next_contract := next_month |}.

Definition usdusd : Currency.t Z :=
  {| Currency.quandl_database := "CURRFX";
     Currency.quandl_symbol := "USDUSD";
     Currency.quandl_rate := Ret |}.

Definition eurusd : Currency.t Z :=
  {| Currency.quandl_database := "CURRFX";
     Currency.quandl_symbol := "EURUSD";
     Currency.quandl_rate := Ret |}.

Definition vix : Spot.t Z :=
  {| Spot.quandl_database := "CBOE";
     Spot.quandl_symbol := "VIX";
     Spot.quandl_column := "VIX Close";
     Spot.multiplier := 1 |}.

Definition one_bar (d : Z) : bar Z :=
  {| date := d; open_p := 10; high_p := 12; low_p := 9;
     close_p := 11; prd_vlm := 100 |}.

(** A vendor that answers [answer] to every request, a store that accepts
    everything, sessions that open, and the year 2020. *)
Definition world (connects : conn → res unit)
    (answer : string → res (list (bar Z))) : Env Z :=
  {| connect_reply c _ := connects c;
     disconnect_reply _ _ := Ret ();
     daily_data_reply ticker _ _ := answer ticker;
     store_update_reply _ _ _ := Ret ();
     store_delete_reply _ _ := Ret ();
     now_year _ := 2020 |}.

(** The vendor has no data for any symbol. *)
Definition no_data : Env Z :=
  world (λ _, Ret ()) (λ _, Raise NoDataError).

(** The vendor has two bars for every symbol. *)
Definition two_bars : Env Z :=
  world (λ _, Ret ()) (λ _, Ret [one_bar 20200102; one_bar 20200103]).

(** IQFeed is not running: the history session is refused. *)
Definition refused : exn :=
  OtherError "ConnectionRefusedError" "[Errno 111] Connection refused".

Definition feed_down : Env Z :=
  world (λ c, match c with HistoryConn => Raise refused | LookupConn => Ret () end)
        (λ _, Raise NoDataError).

(** The lookup session is refused, the history session opens. *)
Definition lookup_down : Env Z :=
  world (λ c, match c with HistoryConn => Ret () | LookupConn => Raise refused end)
        (λ _, Raise NoDataError).

(** A fresh provider: no session attribute bound, nothing logged. *)
Definition fresh (others : gmap string string) : State Z :=
  {| hist_conn := false; lookup_conn := false;
     mapping_currency := {["Date" := "date"; "Rate" := "rate"]};
     mapping_others := others; trace := [] |}.

Definition connected : State Z := with_conns true true (fresh ∅).

(** The state after the December 2020 corn contract was downloaded. *)
Definition corn_downloaded : State Z :=
  (download_contract two_bars corn (IntLabel 202012) connected).2.

End Demo.

(** ** Vocabulary of the specification *)

Module Spec.
Import IQFeedProvider.

(** *** The counting rule of the contract walk, in the spec's words *)

(** What one pass over a contract observes: the download succeeded, or it
    failed and the contract's year had, or had not, reached the current
    calendar year. *)
Inductive outcome : Type :=
| Downloaded
| Missing (year_reached : bool).

(** The counter resets to zero on any success and increments only under
    the year condition on failure. *)
Definition count (fail_count : Z) (o : outcome) : Z :=
  match o with
  | Downloaded => 0
  | Missing true => fail_count + 1
  | Missing false => fail_count
  end%Z.

Definition count_from (fail_count : Z) (os : list outcome) : Z :=
  fold_left count os fail_count.

(** The failures counted in a row at the end of a sequence of outcomes. *)
Definition counted (os : list outcome) : Z := count_from 0 os.

(** [limit] failures in a row have been counted after the [n] outcomes
    [os], and not before. *)
Definition counted_first (limit : Z) (n : nat) (os : list outcome) : Prop :=
  counted os = limit ∧ ∀ m, (m < n)%nat → (counted (take m os) < limit)%Z.

Section Walk.
Context {cell : Type} `{!Scalars cell} `{!Utility} (E : Env cell).

(** The outcome of one pass, as the provider meets it: the first
    download decides, a failed one is followed by the year test and by
    the second attempt. *)
Definition pass_outcome (instrument : Instrument.t) (c : label)
  : M cell outcome :=
  let* ok := download_contract E instrument c in
  if ok : bool then ret Downloaded
  else
    let* reached := year_reached E c in
    download_contract E instrument c >>
    ret (Missing reached).

(** The outcomes of [n] passes in a row, starting at contract [c]. *)
Fixpoint outcomes (n : nat) (instrument : Instrument.t) (c : label)
  : M cell (list outcome) :=
  match n with
  | O => ret []
  | S n =>
      let* o := pass_outcome instrument c in
      let* os := outcomes n instrument
                   (Instrument.next_contract instrument c) in
      ret (o :: os)
  end.

(** The label reached after [n] passes. *)
Fixpoint advance (n : nat) (instrument : Instrument.t) (c : label)
  : label :=
  match n with
  | O => c
  | S n => advance n instrument (Instrument.next_contract instrument c)
  end.

(** The loop ends after exactly [n] passes: any fuel from [n] on yields
    the same exit, reached in the state [st'], and less fuel does not
    reach the exit. *)
Definition walk_ends_after (instrument : Instrument.t) (c : label)
    (st : State cell) (n : nat) (st' : State cell) : Prop :=
  (∃ final, ∀ fuel, (n ≤ fuel)%nat →
     walk E fuel instrument c 0 st = (Ret (Some final), st'))
  ∧ (∀ fuel, (fuel < n)%nat →
       (walk E fuel instrument c 0 st).1 = Ret None).

(** No table was handed to the store between two states. *)
Definition no_store_update (st st' : State cell) : Prop :=
  ∀ key table, StoreUpdate key table ∉ emitted st st'.

(** The vendor's answer to the request that [download_table] issues
    from state [st]. *)
Definition vendor_answer (symbol : string) (st : State cell)
  : res (list (bar cell)) :=
  daily_data_reply E symbol (255 * 3)%Z
    (trace st ++ [Log INFO ("Downloading " +:+ symbol +:+ " from IQFeed")])%list.

(** The line that [download_table] logs when it catches [e]. *)
Definition warning_for (symbol : string) (e : exn) : event cell :=
  Log WARNING
    match e with
    | NoDataError | UnauthorizedError => "NoDataError for symbol " +:+ symbol
    | _ => "Unexpected error occured: " +:+ exn_str e
    end.

(** A sequence of calls of [_format_other], one after the other; what
    the calls return is dropped, the shared state is threaded. *)
Fixpoint format_other_calls
    (calls : list (string * option (frame cell) * option (Spot.t cell)))
    (st : State cell) : State cell :=
  match calls with
  | [] => st
  | (column, data, spot) :: calls =>
      format_other_calls calls ((_format_other column data spot st).2)
  end.

End Walk.

(** The shape of a table of price bars as [_format_future] expects it:
    distinct column labels, among them the five bar columns, no column
    called [date] yet, and columns as long as the index. *)
Definition bar_table {cell} (df : frame cell) : Prop :=
  NoDup (column_names df)
  ∧ ("date" ∉ column_names df)
  ∧ ["close"; "high"; "low"; "open"; "volume"] ⊆ column_names df
  ∧ well_formed df.

(** The values of the column labelled [n] (of the first such column,
    should the label repeat; nothing when there is none). *)
Definition column {cell} (n : string) (df : frame cell) : list cell :=
  match columns_named n df with
  | c :: _ => c.2
  | [] => []
  end.

(** A table of price bars, as far as [_format_future] depends on it: no
    column is called [date] yet, each of the five bar labels names exactly
    one column, and at most one column is called [contract]; as in every
    DataFrame, the columns are as long as the index.  Other columns may be
    there, under any labels. *)
Definition price_bars {cell} (df : frame cell) : Prop :=
  ("date" ∉ column_names df)
  ∧ Forall (λ n, length (columns_named n df) = 1%nat)
      ["close"; "high"; "low"; "open"; "volume"]
  ∧ (length (columns_named "contract" df) ≤ 1)%nat
  ∧ well_formed df.

(** The table of the contract [k] made from the price bars [df]: the
    index as the date column, the contract on every row, and the five bar
    columns of [df], under a fresh integer index. *)
Definition future_table {cell} `{!Scalars cell} (df : frame cell) (k : Z)
  : frame cell :=
  {| index_name := None;
     index := range_index (nrows df);
     columns :=
       [("date", index df);
        ("contract", replicate (nrows df) (int_cell k));
        ("close", column "close" df);
        ("high", column "high" df);
        ("low", column "low" df);
        ("open", column "open" df);
        ("volume", column "volume" df)] |}.

Definition provider_name (p : Factory.provider) : string :=
  match p with
  | Factory.QuandlProvider => "quandl"
  | Factory.IBProvider => "ib"
  | Factory.IQFeedProvider => "iqfeed"
  end.

End Spec.

(** ** Observations on runs of the provider *)

Module Observe.
Import IQFeedProvider.

Section Observe.
Context {cell : Type} `{!Scalars cell} `{!Utility}.

(** [st'] is [st] with more events in the trace: the session attributes
    and the shared column mappings are the same. *)
Definition extends (st st' : State cell) : Prop :=
  ∃ l, st' = with_trace (trace st ++ l)%list st.

(** A computation that, from every state, does nothing to the state but
    add events. *)
Definition appends {A} (m : M cell A) : Prop :=
  ∀ st, extends st (m st).2.


(** The session events among some events, in order. *)
Definition sessions (l : list (event cell)) : list (event cell) :=
  omap (λ ev, match ev with
              | Connect _ | Disconnect _ => Some ev
              | _ => None
              end) l.

(** [api_symbol] of [download_contract]: the vendor's ticker of a
    contract. *)
Definition api_symbol (instrument : Instrument.t) (cont_name : label)
  : string :=
  let '(year, month) := contract_to_tuple cont_name in
  Instrument.iqfeed_symbol instrument +:+ cbot_month_code month
    +:+ slice 2 4 (pretty year).


(** The table stored for the vendor's rows [rows] of the contract [k]:
    the rows in reverse order, each tagged with the contract. *)
Definition stored_table (rows : list (bar cell)) (k : Z) : frame cell :=
  {| index_name := None;
     index := range_index (length rows);
     columns :=
       [("date", rev (date <$> rows));
        ("contract", replicate (length rows) (int_cell k));
        ("close", rev (close_p <$> rows));
        ("high", rev (high_p <$> rows));
        ("low", rev (low_p <$> rows));
        ("open", rev (open_p <$> rows));
        ("volume", rev (prd_vlm <$> rows))] |}.

(** The events of a download that stores [table] for [symbol]. *)
Definition stored_events (q_type : QuotesType.t) (database symbol : string)
    (key : store_key) (table : option (frame cell)) : list (event cell) :=
  [Log INFO ("Downloading " +:+ symbol +:+ " from IQFeed");
   RequestDailyData symbol (255 * 3)%Z;
   Log INFO ("Finished downloading " +:+ symbol +:+ " from IQFeed");
   StoreUpdate key table;
   Log DEBUG ("Wrote data for " +:+ database +:+ "/" +:+ symbol)].

(** The two lines that [download_instrument] logs around the walk. *)
Definition walk_start_message (instrument : Instrument.t) : string :=
  "Downloading contracts for instrument: " +:+ Instrument.name instrument.

Definition walk_end_message (instrument : Instrument.t) : string :=
  "More than 12 missing contracts in a row - ending the "
    +:+ "downloading for the instrument " +:+ Instrument.name instrument.

(** The label a download starts from: a year before the last contract of
    the roll progression for a refresh, the text of the first contract
    otherwise. *)
Definition walk_start (instrument : Instrument.t) (recent : bool)
  : res label :=
  if recent then recent_start instrument
  else Ret (StrLabel (pretty (Instrument.first_contract instrument))).

(** The state in which the walk starts, when both sessions opened. *)
Definition walk_start_state (instrument : Instrument.t) (st : State cell)
  : State cell :=
  with_trace
    (trace st ++ [Connect HistoryConn; Connect LookupConn;
                  Log INFO (walk_start_message instrument)])%list
    (with_conns true true st).

End Observe.
End Observe.

(** ** More concrete collaborators *)

Module Cases.
Import IQFeedProvider Demo.

(** An instrument that has not rolled yet: its roll progression is empty. *)
Definition unlisted : Instrument.t :=
  {| Instrument.name := "unlisted";
     Instrument.iqfeed_symbol := "@XX";
     Instrument.exchange := "CME";
     Instrument.quandl_database := "CME";
     Instrument.quandl_symbol := "XX";
     Instrument.first_contract := 202503;
     Instrument.roll_progression := [];
     Instrument.next_contract := next_month |}.

(** The vendor has two bars for every symbol, and the store refuses every
    table. *)
Definition store_full : exn := OtherError "OperationFailure" "quota exceeded".

Definition store_down : Env Z :=
  {| connect_reply _ _ := Ret ();
     disconnect_reply _ _ := Ret ();
     daily_data_reply _ _ _ := Ret [one_bar 20200102; one_bar 20200103];
     store_update_reply _ _ _ := Raise store_full;
     store_delete_reply _ _ := Ret ();
     now_year _ := 2020%Z |}.

(** A table of two spot series, indexed by date. *)
Definition two_series : frame Z :=
  {| index_name := Some "date";
     index := [20200102; 20200103]%Z;
     columns := [("VIX Close", [14; 15]%Z); ("Settle", [21; 22]%Z)] |}.

(** Tables that are no tables of price bars: an empty DataFrame, one bar
    with a column that is already called [date], and one bar whose close
    is there twice (pandas allows a label to repeat). *)
Definition no_columns : frame Z :=
  {| index_name := None; index := []; columns := [] |}.

Definition dated : frame Z :=
  {| index_name := None;
     index := [20200102]%Z;
     columns := [("open", [10]%Z); ("high", [12]%Z); ("low", [9]%Z);
                 ("close", [11]%Z); ("volume", [100]%Z);
                 ("date", [20200102]%Z)] |}.

Definition two_closes : frame Z :=
  {| index_name := None;
     index := [20200102]%Z;
     columns := [("open", [10]%Z); ("high", [12]%Z); ("low", [9]%Z);
                 ("close", [11]%Z); ("close", [11]%Z);
                 ("volume", [100]%Z)] |}.

(** The shared state after a first spot series was formatted. *)
Definition after_vix : State Z :=
  (_format_other "VIX Close" (Some two_series) None (fresh ∅)).2.

End Cases.

(** * Properties *)

Import IQFeedProvider Spec.

(** ** The provider factory *)

(** C8. [get_provider] on a name other than "quandl", "ib" and "iqfeed"
    raises the generic [Exception] and imports no module; on each of the
    three names it imports the module of the corresponding provider, and
    only that one, and returns an instance of that provider. *)
Theorem get_provider_selects (name : string) :
  (∃ p, name = provider_name p
        ∧ Factory.get_provider name = ([Factory.provider_module p], Ret p))
  ∨ ((∀ p, name ≠ provider_name p)
     ∧ Factory.get_provider name
       = ([], Raise (Exception ("Unknown data provider name: " +:+ name)))).
Proof.
  unfold Factory.get_provider.
  destruct (String.eqb_spec name "quandl") as [->|Hq].
  { left. by exists Factory.QuandlProvider. }
  destruct (String.eqb_spec name "ib") as [->|Hi].
  { left. by exists Factory.IBProvider. }
  destruct (String.eqb_spec name "iqfeed") as [->|Hf].
  { left. by exists Factory.IQFeedProvider. }
  right. split; [|done]. by intros [].
Qed.

(** ** Downloading one table *)

Section TableDownload.
Context {cell : Type} `{!Scalars cell} `{!Utility} (E : Env cell).

Lemma emitted_app (st st' : State cell) (l : list (event cell)) :
  trace st' = (trace st ++ l)%list → emitted st st' = l.
Proof. unfold emitted. intros ->. apply drop_app_length. Qed.

Lemma emitted_refl (st : State cell) : emitted st st = [].
Proof. apply emitted_app. by rewrite app_nil_r. Qed.

(** The [except] clauses turn every exception into [False] and one
    warning. *)
Lemma download_table_except_false (symbol : string) (e : exn)
    (st : State cell) :
  download_table_except symbol e st
  = (Ret false, with_trace (trace st ++ [warning_for symbol e])%list st).
Proof. by destruct e. Qed.

(** So [download_table] returns whatever the [try] block does. *)
Lemma download_table_result q_type database symbol db_symbol kw
    (st : State cell) :
  download_table E q_type database symbol db_symbol kw st
  = match download_table_try E q_type database symbol
            (default symbol db_symbol) kw st with
    | (Ret _, st') => (Ret true, st')
    | (Raise e, st') =>
        (Ret false, with_trace (trace st' ++ [warning_for symbol e])%list st')
    end.
Proof.
  unfold download_table, try_except, bind at 1.
  destruct (download_table_try _ _ _ _ _ _ _) as [[[]|e] st']; [done|].
  apply download_table_except_false.
Qed.

(** [download_table] never raises. *)
Lemma download_table_returns q_type database symbol db_symbol kw
    (st : State cell) :
  ∃ b st', download_table E q_type database symbol db_symbol kw st
           = (Ret b, st').
Proof.
  rewrite download_table_result.
  destruct (download_table_try _ _ _ _ _ _ _) as [[[]|e] st']; eauto.
Qed.

Lemma download_contract_returns instrument c (st : State cell) :
  ∃ b st', download_contract E instrument c st = (Ret b, st').
Proof.
  unfold download_contract. destruct (contract_to_tuple c).
  apply download_table_returns.
Qed.

(** The [try] block up to the vendor's answer. *)
Lemma download_table_try_unbound q_type database symbol db_symbol kw
    (st : State cell) :
  hist_conn st = false →
  download_table_try E q_type database symbol db_symbol kw st
  = (Raise (AttributeError
              "'IQFeedProvider' object has no attribute 'hist_conn'"),
     with_trace
       (trace st ++ [Log INFO ("Downloading " +:+ symbol +:+ " from IQFeed")])%list
       st).
Proof.
  intros Hc. unfold download_table_try, bind, log, call, getattr_self.
  cbn. by rewrite Hc.
Qed.

Lemma download_table_try_vendor_error q_type database symbol db_symbol kw
    (st : State cell) (e : exn) :
  hist_conn st = true →
  vendor_answer E symbol st = Raise e →
  download_table_try E q_type database symbol db_symbol kw st
  = (Raise e,
     with_trace
       (trace st ++ [Log INFO ("Downloading " +:+ symbol +:+ " from IQFeed");
                     RequestDailyData symbol (255 * 3)%Z])%list
       st).
Proof.
  intros Hc He. unfold download_table_try, bind, log, call, getattr_self.
  cbn. rewrite Hc. cbn. unfold vendor_answer in He. rewrite He.
  by rewrite <- app_assoc.
Qed.

Lemma download_table_try_no_instrument q_type database symbol db_symbol kw
    (st : State cell) (rows : list (bar cell)) :
  hist_conn st = true →
  vendor_answer E symbol st = Ret rows →
  kw_instrument kw = None →
  download_table_try E q_type database symbol db_symbol kw st
  = (Raise (AttributeError "'NoneType' object has no attribute 'exchange'"),
     with_trace
       (trace st ++ [Log INFO ("Downloading " +:+ symbol +:+ " from IQFeed");
                     RequestDailyData symbol (255 * 3)%Z;
                     Log INFO ("Finished downloading " +:+ symbol
                                 +:+ " from IQFeed")])%list
       st).
Proof.
  intros Hc He Hk.
  unfold download_table_try, bind, log, call, getattr_self, instrument_exchange.
  cbn. rewrite Hc. cbn. unfold vendor_answer in He. rewrite He, Hk. cbn.
  by rewrite <- !app_assoc.
Qed.

Lemma emitted_with_trace (st st1 : State cell) (l : list (event cell)) :
  emitted st (with_trace (trace st ++ l)%list st1) = l.
Proof. by apply emitted_app. Qed.

(** Reduce [emitted] between a state and the explicit state reached. *)
Ltac emitted_list :=
  cbn [trace with_trace]; rewrite <- ?app_assoc;
  rewrite emitted_with_trace; cbn [app].

Ltac no_update :=
  let Hin := fresh "Hin" in
  unfold no_store_update; emitted_list; intros ? ? Hin;
  repeat (apply elem_of_cons in Hin as [Hin|Hin]; [discriminate Hin|]);
  by apply elem_of_nil in Hin.

(** Without an instrument the [try] block always ends in an exception,
    and before the store is reached. *)
Lemma download_table_no_instrument q_type database symbol db_symbol kw
    (st : State cell) :
  kw_instrument kw = None →
  ∃ st', download_table E q_type database symbol db_symbol kw st
         = (Ret false, st')
         ∧ no_store_update st st'.
Proof.
  intros Hk. rewrite download_table_result.
  destruct (hist_conn st) eqn:Hc.
  - destruct (vendor_answer E symbol st) as [rows|e] eqn:He.
    + rewrite download_table_try_no_instrument with (rows := rows) by done.
      eexists. split; [done|].
      no_update.
    + rewrite download_table_try_vendor_error with (e := e) by done.
      eexists. split; [done|].
      no_update.
  - rewrite download_table_try_unbound by done.
    eexists. split; [done|].
    no_update.
Qed.

(** The [try] block once the vendor has delivered rows and an instrument
    is among the keywords: the rows are formatted and handed to the store
    under the key of the exchange and the database symbol. *)
Lemma download_table_try_rows q_type database symbol db_symbol kw
    (st : State cell) (rows : list (bar cell))
    (instrument : Instrument.t) :
  hist_conn st = true →
  vendor_answer E symbol st = Ret rows →
  kw_instrument kw = Some instrument →
  download_table_try E q_type database symbol db_symbol kw st
  = (let key := (library, q_type,
                 Instrument.exchange instrument +:+ "_" +:+ db_symbol) in
     let* table := formnat_fn q_type kw (iloc_reversed (fut_df rows)) in
     call (StoreUpdate key table) (store_update_reply E key table) >>
     log DEBUG ("Wrote data for " +:+ database +:+ "/" +:+ symbol))
      (with_trace
         (trace st ++ [Log INFO ("Downloading " +:+ symbol +:+ " from IQFeed");
                       RequestDailyData symbol (255 * 3)%Z;
                       Log INFO ("Finished downloading " +:+ symbol
                                   +:+ " from IQFeed")])%list
         st).
Proof.
  intros Hc He Hk.
  unfold download_table_try, bind at 1, log at 1, call at 1.
  unfold bind at 1, getattr_self. cbn [hist_conn with_trace]. rewrite Hc.
  unfold bind at 1, call at 1. cbn [trace with_trace].
  unfold vendor_answer in He. rewrite He.
  unfold bind at 1, log at 1, call at 1. cbn [trace with_trace].
  unfold bind at 1, instrument_exchange. rewrite Hk. unfold ret at 1.
  by rewrite <- !app_assoc.
Qed.

(** With an instrument among the keywords, the format function that is
    called is [_format_future] or a call that Python refuses: it leaves the
    state as it is. *)
Lemma formnat_fn_state q_type kw (data : frame cell) (st : State cell)
    (instrument : Instrument.t) :
  kw_instrument kw = Some instrument →
  (formnat_fn q_type kw data st).2 = st.
Proof.
  intros Hk. unfold formnat_fn. rewrite Hk.
  by destruct q_type, (kw_col kw), (kw_currency kw), (kw_spot kw).
Qed.

(** C3. [download_table] lets no exception through: from every state and
    for all arguments it returns a boolean, and every exception raised
    inside the [try] block ends in a false result, with the warning for
    that exception as the last thing the call does.  Case by case:
    - the history session is not bound: false, after the info line and the
      warning for the [AttributeError];
    - the vendor answers with an error: false, after the info line, the
      request and the warning (which reads "NoDataError for symbol ..." for
      the vendor's no-data and unauthorized errors, "Unexpected error
      occured: ..." for any other), and the store is not updated;
    - the vendor delivers rows but no instrument was given: false, with
      the warning for the [AttributeError] of the store key;
    - the format function raises: false, with the warning for its
      exception, and the store is not updated;
    - the store's update raises: false, with the warning for its
      exception after the update;
    - otherwise true, after the update and the debug line. *)
Theorem download_table_never_raises q_type database symbol db_symbol kw
    (st : State cell) :
  let started := Log INFO ("Downloading " +:+ symbol +:+ " from IQFeed") in
  let request := RequestDailyData symbol (255 * 3)%Z in
  let finished :=
    Log INFO ("Finished downloading " +:+ symbol +:+ " from IQFeed") in
  let wrote := Log DEBUG ("Wrote data for " +:+ database +:+ "/" +:+ symbol) in
  ∃ b st',
    download_table E q_type database symbol db_symbol kw st = (Ret b, st')
    ∧ (b = false → ∃ e, last (trace st') = Some (warning_for symbol e))
    ∧ (hist_conn st = false →
         b = false
         ∧ emitted st st'
           = [started;
              warning_for symbol
                (AttributeError
                   "'IQFeedProvider' object has no attribute 'hist_conn'")])
    ∧ (∀ e, hist_conn st = true → vendor_answer E symbol st = Raise e →
         b = false
         ∧ emitted st st' = [started; request; warning_for symbol e]
         ∧ no_store_update st st')
    ∧ (∀ rows, hist_conn st = true → vendor_answer E symbol st = Ret rows →
         match kw_instrument kw with
         | None =>
             b = false
             ∧ emitted st st'
               = [started; request; finished;
                  warning_for symbol
                    (AttributeError
                       "'NoneType' object has no attribute 'exchange'")]
         | Some instrument =>
             let key := (library, q_type,
                         Instrument.exchange instrument +:+ "_"
                           +:+ default symbol db_symbol) in
             let st2 :=
               with_trace (trace st ++ [started; request; finished])%list st in
             match (formnat_fn q_type kw (iloc_reversed (fut_df rows)) st2).1
             with
             | Raise e =>
                 b = false
                 ∧ emitted st st'
                   = [started; request; finished; warning_for symbol e]
                 ∧ no_store_update st st'
             | Ret table =>
                 match store_update_reply E key table (trace st2) with
                 | Raise e =>
                     b = false
                     ∧ emitted st st'
                       = [started; request; finished; StoreUpdate key table;
                          warning_for symbol e]
                 | Ret _ =>
                     b = true
                     ∧ emitted st st'
                       = [started; request; finished; StoreUpdate key table;
                          wrote]
                 end
             end
         end).
Proof.
  intros started request finished wrote.
  rewrite download_table_result.
  destruct (hist_conn st) eqn:Hc.
  - destruct (vendor_answer E symbol st) as [rows|e] eqn:He.
    + destruct (kw_instrument kw) as [instrument|] eqn:Hk.
      * rewrite download_table_try_rows with (rows := rows)
            (instrument := instrument) by done.
        cbn zeta. unfold bind at 1.
        pose proof (formnat_fn_state q_type kw (iloc_reversed (fut_df rows))
                      (with_trace (trace st ++ [started; request; finished])%list
                         st) instrument Hk) as Hst.
        destruct (formnat_fn q_type kw _ _) as [[table|e] st2] eqn:Hf;
          cbn [snd] in Hst; subst st2.
        -- unfold bind, call, log, call. cbn [trace with_trace].
           destruct (store_update_reply E _ table _) as [[]|e] eqn:Hs.
           ++ eexists true, _. split; [done|]. split; [done|].
              split; [done|]. split; [done|].
              intros rows' _ [= <-]. rewrite Hf. cbn [fst]. rewrite Hs.
              split; [done|]. by emitted_list.
           ++ eexists false, _. split; [done|]. split.
              { intros _. exists e. cbn [trace with_trace]. apply last_snoc. }
              split; [done|]. split; [done|].
              intros rows' _ [= <-]. rewrite Hf. cbn [fst]. rewrite Hs.
              split; [done|]. by emitted_list.
        -- eexists false, _. split; [done|]. split.
           { intros _. exists e. cbn [trace with_trace]. apply last_snoc. }
           split; [done|]. split; [done|].
           intros rows' _ [= <-]. rewrite Hf. cbn [fst].
           split; [done|]. split; [by emitted_list|no_update].
      * rewrite download_table_try_no_instrument with (rows := rows) by done.
        eexists false, _. split; [done|]. split.
        { intros _. eexists. cbn [trace with_trace]. apply last_snoc. }
        split; [done|]. split; [done|].
        intros rows' _ _. split; [done|]. by emitted_list.
    + rewrite download_table_try_vendor_error with (e := e) by done.
      eexists false, _. split; [done|]. split.
      { intros _. exists e. cbn [trace with_trace]. apply last_snoc. }
      split; [done|]. split; [|done].
      intros e' _ [= <-]. split; [done|]. split; [by emitted_list|no_update].
  - rewrite download_table_try_unbound by done.
    eexists false, _. split; [done|]. split.
    { intros _. eexists. cbn [trace with_trace]. apply last_snoc. }
    split; [|done]. intros _. split; [done|]. by emitted_list.
Qed.

(** C4. A call of [download_table] without the [instrument] keyword
    returns false and never reaches the store's update; when the vendor
    did deliver rows, the exception that is swallowed is the
    [AttributeError] of [kwargs.get('instrument').exchange].  This is the
    case of every [download_currency] call on a pair whose two halves
    differ and of every [download_spot] call. *)
Theorem download_table_without_instrument q_type database symbol db_symbol kw
    (st : State cell) :
  kw_instrument kw = None →
  (∃ st',
     download_table E q_type database symbol db_symbol kw st = (Ret false, st')
     ∧ no_store_update st st'
     ∧ (∀ rows, hist_conn st = true → vendor_answer E symbol st = Ret rows →
          last (trace st')
          = Some (warning_for symbol
                    (AttributeError
                       "'NoneType' object has no attribute 'exchange'"))))
  ∧ (∀ (currency : Currency.t cell) (st0 : State cell),
       slice 0 3 (Currency.quandl_symbol currency)
         ≠ slice 3 6 (Currency.quandl_symbol currency) →
       ∃ st', download_currency E currency st0 = (Ret false, st')
              ∧ no_store_update st0 st')
  ∧ (∀ (spot : Spot.t cell) (st0 : State cell),
       ∃ st', download_spot E spot st0 = (Ret false, st')
              ∧ no_store_update st0 st').
Proof.
  intros Hk. split; [|split].
  - destruct (download_table_no_instrument q_type database symbol db_symbol
                kw st Hk) as (st' & Hrun & Hno).
    exists st'. split; [done|]. split; [done|].
    intros rows Hc He. rewrite download_table_result in Hrun.
    rewrite download_table_try_no_instrument with (rows := rows) in Hrun
      by done.
    injection Hrun as <-. cbn. apply last_snoc.
  - intros currency st0 Hne. unfold download_currency.
    destruct (String.eqb_spec (slice 0 3 (Currency.quandl_symbol currency))
                (slice 3 6 (Currency.quandl_symbol currency))); [done|].
    by apply download_table_no_instrument.
  - intros spot st0. by apply download_table_no_instrument.
Qed.

(** C6. For a currency whose symbol has equal first and second three
    letters, [download_currency] returns true at once: the state is the
    one it started from, so no vendor request was issued and nothing was
    written to the store. *)
Theorem download_currency_symmetric (currency : Currency.t cell)
    (st : State cell) :
  slice 0 3 (Currency.quandl_symbol currency)
    = slice 3 6 (Currency.quandl_symbol currency) →
  download_currency E currency st = (Ret true, st)
  ∧ emitted st (download_currency E currency st).2 = [].
Proof.
  intros Heq. unfold download_currency. rewrite Heq, String.eqb_refl.
  split; [done|]. apply emitted_refl.
Qed.

End TableDownload.

(** ** The contract walk *)

Section ContractWalk.
Context {cell : Type} `{!Scalars cell} `{!Utility} (E : Env cell).
Implicit Types (instrument : Instrument.t) (c : label) (st : State cell).
Implicit Types (fail_count : Z) (os : list outcome).

Local Open Scope Z_scope.

(** One pass of the loop body computes the pass's outcome, applies the
    counting rule to it and moves to the next label. *)
Lemma walk_body_outcome instrument c fail_count st :
  walk_body E instrument c fail_count st
  = (let* o := pass_outcome E instrument c in
     ret (Instrument.next_contract instrument c, count fail_count o)) st.
Proof.
  unfold walk_body, pass_outcome, bind, ret.
  destruct (download_contract E instrument c st) as [[[|]|e] st1]; try done.
  destruct (year_reached E c st1) as [[[|]|e] st2]; try done;
    by destruct (download_contract E instrument c st2) as [[b|e] st3].
Qed.

(** The three ways through one unfolding of the loop. *)
Lemma walk_exit_now fuel instrument c fail_count st :
  12 < fail_count →
  walk E fuel instrument c fail_count st = (Ret (Some (c, fail_count)), st).
Proof.
  intros Hlt. destruct fuel; cbn [walk];
    by rewrite (proj2 (Z.leb_gt _ _)) by lia.
Qed.

Lemma walk_out_of_fuel instrument c fail_count st :
  fail_count ≤ 12 →
  walk E 0 instrument c fail_count st = (Ret None, st).
Proof. intros Hle. cbn [walk]. by rewrite (proj2 (Z.leb_le _ _)) by lia. Qed.

Lemma walk_pass fuel instrument c fail_count st o st1 :
  fail_count ≤ 12 →
  pass_outcome E instrument c st = (Ret o, st1) →
  walk E (S fuel) instrument c fail_count st
  = walk E fuel instrument (Instrument.next_contract instrument c)
      (count fail_count o) st1.
Proof.
  intros Hle Hpass. cbn [walk]. rewrite (proj2 (Z.leb_le _ _)) by lia.
  unfold bind at 1. rewrite walk_body_outcome. unfold bind at 1.
  by rewrite Hpass.
Qed.

Lemma outcomes_succ n instrument c st os st' :
  outcomes E (S n) instrument c st = (Ret os, st') →
  ∃ o os' st1,
    pass_outcome E instrument c st = (Ret o, st1)
    ∧ outcomes E n instrument (Instrument.next_contract instrument c) st1
      = (Ret os', st')
    ∧ os = o :: os'.
Proof.
  cbn [outcomes]. unfold bind, ret.
  destruct (pass_outcome E instrument c st) as [[o|e] st1]; [|done].
  destruct (outcomes E n instrument _ st1) as [[os'|e] st2] eqn:Hos';
    [|done].
  intros [= <- <-]. by exists o, os', st1.
Qed.

Lemma outcomes_length n instrument c st os st' :
  outcomes E n instrument c st = (Ret os, st') → length os = n.
Proof.
  revert c st os. induction n as [|n IH]; intros c st os Hos.
  - by injection Hos as <- _.
  - apply outcomes_succ in Hos as (o & os' & st1 & _ & Hos' & ->).
    cbn. f_equal. by eapply IH.
Qed.

Lemma outcomes_prefix n instrument c st os st' m :
  outcomes E n instrument c st = (Ret os, st') → (m ≤ n)%nat →
  ∃ st_m, outcomes E m instrument c st = (Ret (take m os), st_m).
Proof.
  revert n c st os. induction m as [|m IH]; intros n c st os Hos Hle.
  - by exists st.
  - destruct n as [|n]; [lia|].
    apply outcomes_succ in Hos as (o & os' & st1 & Hpass & Hos' & ->).
    destruct (IH n _ _ _ Hos') as [st_m Hm]; [lia|].
    exists st_m. cbn [outcomes take]. unfold bind at 1. rewrite Hpass.
    unfold bind at 1. by rewrite Hm.
Qed.

(** The counter moves up by at most one per pass. *)
Lemma count_from_snoc fail_count os o :
  count_from fail_count (os ++ [o]) = count (count_from fail_count os) o.
Proof. unfold count_from. by rewrite fold_left_app. Qed.

Lemma count_le_succ fail_count o :
  0 ≤ fail_count → 0 ≤ count fail_count o ≤ fail_count + 1.
Proof. destruct o as [|[]]; cbn; lia. Qed.

Lemma count_from_nonneg fail_count os :
  0 ≤ fail_count → 0 ≤ count_from fail_count os.
Proof.
  revert fail_count. induction os as [|o os IH]; intros fc Hfc; [done|].
  apply IH. by apply count_le_succ.
Qed.

(** The loop leaves as soon as the counter has passed 12, with the
    variables and in the state of that moment. *)
Lemma walk_exit n instrument c fail_count st os st' fuel :
  outcomes E n instrument c st = (Ret os, st') →
  (∀ m, (m < n)%nat → count_from fail_count (take m os) ≤ 12) →
  12 < count_from fail_count os →
  (n ≤ fuel)%nat →
  walk E fuel instrument c fail_count st
  = (Ret (Some (advance n instrument c, count_from fail_count os)), st').
Proof.
  revert c fail_count st os fuel.
  induction n as [|n IH]; intros c fail_count st os fuel Hos Hbefore Hnow Hfuel.
  - injection Hos as <- <-. by apply walk_exit_now.
  - apply outcomes_succ in Hos as (o & os' & st1 & Hpass & Hos' & ->).
    destruct fuel as [|fuel]; [lia|].
    rewrite (walk_pass _ _ _ _ _ o st1); [|apply (Hbefore 0%nat); lia|done].
    apply (IH _ (count fail_count o) _ os'); [exact Hos'| |exact Hnow|lia].
    intros m Hm. apply (Hbefore (S m)). lia.
Qed.

(** While the counter stays within 12 the loop goes on. *)
Lemma walk_running n instrument c fail_count st os st' :
  outcomes E n instrument c st = (Ret os, st') →
  (∀ m, (m ≤ n)%nat → count_from fail_count (take m os) ≤ 12) →
  walk E n instrument c fail_count st = (Ret None, st').
Proof.
  revert c fail_count st os.
  induction n as [|n IH]; intros c fail_count st os Hos Hle.
  - injection Hos as <- <-. apply walk_out_of_fuel. apply (Hle 0%nat). lia.
  - apply outcomes_succ in Hos as (o & os' & st1 & Hpass & Hos' & ->).
    rewrite (walk_pass _ _ _ _ _ o st1); [|apply (Hle 0%nat); lia|done].
    apply (IH _ (count fail_count o) _ os'); [exact Hos'|].
    intros m Hm. apply (Hle (S m)). lia.
Qed.

Lemma walk_running_inv n instrument c fail_count st os st' :
  outcomes E n instrument c st = (Ret os, st') →
  (walk E n instrument c fail_count st).1 = Ret None →
  ∀ m, (m ≤ n)%nat → count_from fail_count (take m os) ≤ 12.
Proof.
  revert c fail_count st os.
  induction n as [|n IH]; intros c fail_count st os Hos Hwalk m Hm;
    (destruct (Z.le_gt_cases fail_count 12) as [Hle|Hgt];
     [|by rewrite walk_exit_now in Hwalk by lia]).
  - by replace m with 0%nat by lia.
  - apply outcomes_succ in Hos as (o & os' & st1 & Hpass & Hos' & ->).
    rewrite (walk_pass _ _ _ _ _ o st1) in Hwalk by done.
    destruct m as [|m]; [done|].
    apply (IH _ (count fail_count o) _ os' Hos' Hwalk). lia.
Qed.

(** What one pass does on a numeric label: a success resets the counter;
    a failure increments it exactly when the label's year has reached the
    current year, and downloads the same contract once more; the label
    moves to its successor either way. *)
Lemma walk_body_numeric instrument (n : Z) fail_count st :
  match download_contract E instrument (IntLabel n) st with
  | (Ret true, st1) =>
      walk_body E instrument (IntLabel n) fail_count st
      = (Ret (Instrument.next_contract instrument (IntLabel n), 0), st1)
  | (Ret false, st1) =>
      walk_body E instrument (IntLabel n) fail_count st
      = (Ret (Instrument.next_contract instrument (IntLabel n),
              if now_year E (trace st1) <=? Z.quot n 100
              then fail_count + 1 else fail_count),
         (download_contract E instrument (IntLabel n) st1).2)
  | (Raise _, _) => False
  end.
Proof.
  destruct (download_contract_returns E instrument (IntLabel n) st)
    as (b & st1 & Hrun).
  rewrite Hrun. unfold walk_body, bind, year_reached, bind, lift, ret.
  rewrite Hrun. destruct b; [done|]. cbn.
  by destruct (download_contract_returns E instrument (IntLabel n) st1)
    as (b2 & st2 & ->).
Qed.

(** On the text of a label the year test has no [/]: a failed download
    ends the pass, and the walk, with a [TypeError]. *)
Lemma walk_body_text_failure instrument (s : string) fail_count st st1 :
  download_contract E instrument (StrLabel s) st = (Ret false, st1) →
  walk_body E instrument (StrLabel s) fail_count st
  = (Raise (TypeError "unsupported operand type(s) for /: 'str' and 'int'"),
     st1).
Proof. intros Hrun. unfold walk_body, bind. by rewrite Hrun. Qed.

(** C1 (amended). Take any [n] passes of the walk that meet the outcomes
    [os] (started with the counter at zero).  The loop ends after exactly
    these [n] passes if and only if 13 failures in a row have been
    counted, under the year-gated rule, after the [n] outcomes and not
    before: the loop test is [fail_count <= 12].  It then leaves with the
    label reached by [n] steps of the successor function and with the
    counter at 13, whatever fuel from [n] on is given. *)
Theorem walk_ends_at_13_counted instrument c st n os st' :
  outcomes E n instrument c st = (Ret os, st') →
  (counted_first 13 n os ↔ walk_ends_after E instrument c st n st')
  ∧ (counted_first 13 n os →
     ∀ fuel, (n ≤ fuel)%nat →
       walk E fuel instrument c 0 st
       = (Ret (Some (advance n instrument c, 13)), st')).
Proof.
  intros Hos.
  assert (counted_first 13 n os →
          ∀ fuel, (n ≤ fuel)%nat →
            walk E fuel instrument c 0 st
            = (Ret (Some (advance n instrument c, 13)), st')) as Hfwd.
  { intros [H13 Hbefore] fuel Hfuel. rewrite <- H13. unfold counted.
    apply (walk_exit n _ _ _ _ os); [done| | |done].
    - intros m Hm. specialize (Hbefore m Hm). unfold counted in Hbefore. lia.
    - unfold counted in H13. lia. }
  split; [|exact Hfwd]. split.
  - intros Hc. split; [eexists; exact (Hfwd Hc)|].
    intros fuel Hlt.
    destruct (outcomes_prefix n instrument c st os st' fuel Hos) as [stf Hf];
      [lia|].
    rewrite (walk_running fuel _ _ _ _ (take fuel os) stf Hf); [done|].
    intros m Hm. rewrite take_take. replace (m `min` fuel)%nat with m by lia.
    destruct Hc as [_ Hb]. specialize (Hb m). unfold counted in Hb. lia.
  - intros [[final Hend] Hnone].
    assert (∀ m, (m < n)%nat → counted (take m os) ≤ 12) as Hbefore.
    { intros m Hm.
      destruct (outcomes_prefix n instrument c st os st' m Hos) as [stm Hm'];
        [lia|].
      pose proof (walk_running_inv m _ _ _ _ _ _ Hm' (Hnone m Hm) m (le_n _))
        as Hx.
      rewrite take_take in Hx. by replace (m `min` m)%nat with m in Hx by lia. }
    pose proof (outcomes_length _ _ _ _ _ _ Hos) as Hlen.
    assert (12 < counted os) as Hgt.
    { destruct (Z.le_gt_cases (counted os) 12) as [Hle|]; [exfalso|done].
      assert (walk E n instrument c 0 st = (Ret None, st')) as Hrun.
      { apply (walk_running n _ _ _ _ os); [done|]. intros m Hm.
        destruct (decide (m = n)) as [->|Hne].
        - by rewrite take_ge by lia.
        - apply Hbefore. lia. }
      by rewrite (Hend n) in Hrun by lia. }
    split; [|intros m Hm; specialize (Hbefore m Hm); lia].
    destruct os as [|o os _] using rev_ind; [done|].
    rewrite length_app in Hlen. cbn in Hlen.
    specialize (Hbefore (length os)).
    rewrite take_app_length in Hbefore.
    unfold counted in *. rewrite count_from_snoc in *.
    pose proof (count_from_nonneg 0 os).
    pose proof (count_le_succ (count_from 0 os) o). lia.
Qed.

End ContractWalk.


(** ** Sessions *)

Section Sessions.
Context {cell : Type} `{!Scalars cell} `{!Utility} (E : Env cell).

(** [connect] returns [True] or lets the vendor's exception through: the
    test [if not ok] in [download_instrument] never sees a false value. *)
Lemma connect_never_false (st : State cell) : (connect E st).1 ≠ Ret false.
Proof.
  unfold connect, call. cbn.
  destruct (connect_reply E HistoryConn (trace st)); [|done].
  by destruct (connect_reply E LookupConn _).
Qed.

Lemma download_instrument_history_refused fuel instrument recent
    (st : State cell) (e : exn) :
  connect_reply E HistoryConn (trace st) = Raise e →
  (download_instrument E fuel instrument recent st).1 = Raise e.
Proof.
  intros He. unfold download_instrument, bind at 1, connect, call. cbn.
  by rewrite He.
Qed.

Lemma download_instrument_lookup_refused fuel instrument recent
    (st : State cell) (e : exn) :
  connect_reply E HistoryConn (trace st) = Ret () →
  connect_reply E LookupConn (trace st ++ [Connect HistoryConn])%list
    = Raise e →
  (download_instrument E fuel instrument recent st).1 = Raise e.
Proof.
  intros Hh He. unfold download_instrument, bind at 1, connect, call. cbn.
  by rewrite Hh, He.
Qed.

End Sessions.

(** ** Store keys *)

Section StoreKeys.
Context {cell : Type} `{!Scalars cell} `{!Utility} (E : Env cell).

(** [drop_instrument] deletes the record under [drop_key]. *)
Lemma drop_instrument_deletes instrument (st : State cell) :
  emitted st (drop_instrument E instrument st).2
  = [StoreDelete (drop_key instrument)].
Proof. by apply emitted_app. Qed.

(** [download_contract] hands a table to the store under [download_key],
    and under no other key. *)
Lemma download_contract_updates instrument c (st : State cell) key table :
  StoreUpdate key table ∈ emitted st (download_contract E instrument c st).2 →
  key = download_key instrument.
Proof.
  unfold download_contract. destruct (contract_to_tuple c) as [year month].
  rewrite download_table_result.
  unfold download_table_try, bind, log, call, getattr_self,
    instrument_exchange, formnat_fn, lift, ret.
  cbn [kw_col kw_currency kw_spot kw_instrument kw_contract default
       trace with_trace hist_conn].
  destruct (hist_conn st); cbn [trace with_trace];
    [destruct (daily_data_reply E _ _ _) as [rows|e]; cbn [trace with_trace];
     [destruct (_format_future _ _ _) as [formatted|e]; cbn [trace with_trace];
      [destruct (store_update_reply E _ _ _) as [[]|e];
       cbn [trace with_trace]|]|]|];
    cbn [snd trace with_trace]; rewrite <- ?app_assoc;
    rewrite emitted_with_trace; cbn [app]; intros Hin;
    repeat (apply elem_of_cons in Hin as [Hin|Hin];
            [first [discriminate Hin | by injection Hin as -> _]|]);
    by apply elem_of_nil in Hin.
Qed.

(** The two keys agree exactly when the joined symbols do. *)
Lemma drop_key_download_key instrument :
  drop_key instrument = download_key instrument
  ↔ Instrument.quandl_database instrument +:+ "_"
      +:+ Instrument.quandl_symbol instrument
    = Instrument.exchange instrument +:+ "_"
      +:+ Instrument.iqfeed_symbol instrument.
Proof. unfold drop_key, download_key. split; [by intros [=]|by intros ->]. Qed.

End StoreKeys.

(** ** Tables with distinct column labels *)

Section FrameFacts.
Context {cell : Type} `{!Scalars cell}.
Implicit Types (df : frame cell) (cols : list (string * list cell)).
Implicit Types (n : string) (v : list cell).

Lemma filter_label_absent cols n :
  n ∉ cols.*1 → filter (λ c, c.1 = n) cols = [].
Proof.
  induction cols as [|[m v] cols IH]; [done|].
  rewrite fmap_cons, not_elem_of_cons. cbn [fst]. intros [Hne Hnin].
  rewrite filter_cons_False by (cbn; congruence). by apply IH.
Qed.

Lemma filter_label_unique cols n :
  NoDup cols.*1 → n ∈ cols.*1 →
  ∃ v, filter (λ c, c.1 = n) cols = [(n, v)] ∧ (n, v) ∈ cols.
Proof.
  induction cols as [|[m v] cols IH].
  - intros _ Hin. by apply elem_of_nil in Hin.
  - rewrite fmap_cons, NoDup_cons, elem_of_cons. cbn [fst].
    intros [Hnin Hnd] Hin.
    destruct (decide (m = n)) as [->|Hne].
    + exists v. rewrite filter_cons_True by done.
      rewrite filter_label_absent by done. split; [done|]. apply elem_of_cons; auto.
    + destruct Hin as [->|Hin]; [done|].
      destruct (IH Hnd Hin) as (w & Hf & Hw). exists w.
      rewrite filter_cons_False by (cbn; congruence).
      split; [done|]. apply elem_of_cons; auto.
Qed.

Lemma length_range_index (n : nat) : length (range_index (cell := cell) n) = n.
Proof. unfold range_index. by rewrite length_fmap, length_seq. Qed.

End FrameFacts.

(** ** Formatters *)

Section Formatters.
Context {cell : Type} `{!Scalars cell}.

(** The table that [download_table] assembles from the vendor's rows is a
    table of price bars, whatever the rows. *)
Lemma fut_df_bar_table (rows : list (bar cell)) :
  bar_table (iloc_reversed (fut_df rows)).
Proof.
  unfold bar_table, well_formed, column_names, nrows. cbn.
  split; [|split; [|split]].
  - apply NoDup_ListNoDup. repeat constructor; cbn; intuition discriminate.
  - intros Hx.
    repeat (apply elem_of_cons in Hx as [Hx|Hx]; [discriminate Hx|]).
    by apply elem_of_nil in Hx.
  - intros x Hx. repeat (apply elem_of_cons in Hx as [->|Hx]);
      [..|by apply elem_of_nil in Hx];
      repeat first [apply list_elem_of_here | apply list_elem_of_further].
  - repeat constructor; cbn; by rewrite !length_rev, !length_fmap.
Qed.

(** A table with distinct labels that has the bar columns is a table of
    price bars. *)
Lemma bar_table_price_bars (df : frame cell) : bar_table df → price_bars df.
Proof.
  intros (Hnd & Hdate & Hsub & Hwf). split; [done|]. split; [|split; [|done]].
  - apply Forall_forall. intros n Hn.
    destruct (filter_label_unique (columns df) n Hnd (Hsub n Hn))
      as (v & Hf & _).
    unfold columns_named. by rewrite Hf.
  - destruct (decide ("contract" ∈ column_names df)) as [Hin|Hnin].
    + destruct (filter_label_unique (columns df) "contract" Hnd Hin)
        as (v & Hf & _).
      unfold columns_named. by rewrite Hf.
    + unfold columns_named. rewrite filter_label_absent by done. cbn. lia.
Qed.

(** A label that names one column names the column that [column] reads. *)
Lemma columns_named_once (n : string) (df : frame cell) :
  length (columns_named n df) = 1%nat →
  columns_named n df = [(n, column n df)] ∧ (n, column n df) ∈ columns df.
Proof.
  unfold column.
  destruct (columns_named n df) as [|[m v] [|]] eqn:Hf; [done| |done].
  intros _.
  assert ((m, v) ∈ columns_named n df) as Hin
    by (rewrite Hf; apply list_elem_of_here).
  apply list_elem_of_filter in Hin as [Hm Hin]. cbn in Hm. by subst m.
Qed.

(** Assigning to the label [m] leaves the columns under other labels. *)
Lemma columns_named_setitem_ne (n m : string) (v : list cell)
    (df : frame cell) :
  n ≠ m → columns_named n (setitem m v df) = columns_named n df.
Proof.
  intros Hne. unfold columns_named, setitem. cbn [columns].
  destruct (has_column m df); cbn [columns].
  - induction (columns df) as [|[l w] cols IH]; [done|].
    rewrite fmap_cons, !filter_cons. cbn [fst].
    destruct (decide (l = m)) as [->|Hl]; cbn [fst].
    + by rewrite !decide_False by congruence.
    + destruct (decide (l = n)); by rewrite IH.
  - rewrite filter_app, filter_cons_False by (cbn; congruence).
    by rewrite filter_nil, app_nil_r.
Qed.

(** Assigning to a label that names at most one column leaves exactly
    one column under it, with the values assigned. *)
Lemma columns_named_setitem_eq (m : string) (v : list cell)
    (df : frame cell) :
  (length (columns_named m df) ≤ 1)%nat →
  columns_named m (setitem m v df) = [(m, v)].
Proof.
  unfold columns_named, setitem, has_column, column_names.
  intros Hlen. case_bool_decide as Hin; cbn [columns].
  - assert (filter (λ c : string * list cell, c.1 = m)
              ((λ c : string * list cell,
                  if decide (c.1 = m) then (m, v) else c) <$> columns df)
            = (λ _, (m, v)) <$> filter (λ c : string * list cell, c.1 = m)
                                  (columns df)) as ->.
    { clear Hin Hlen. induction (columns df) as [|[l w] cols IH]; [done|].
      rewrite fmap_cons, !filter_cons. cbn [fst].
      destruct (decide (l = m)) as [->|Hl]; cbn [fst].
      - rewrite decide_True by done. by rewrite fmap_cons, IH.
      - by rewrite decide_False by done. }
    destruct (filter (λ c : string * list cell, c.1 = m) (columns df))
      as [|c1 [|c2 cs]] eqn:Hf; [|done|cbn in Hlen; lia].
    destruct (proj1 (list_elem_of_fmap _ _ _) Hin) as ([l w] & Hl & Hlw).
    cbn in Hl. subst l.
    assert ((m, w) ∈ filter (λ c : string * list cell, c.1 = m) (columns df))
      as Hmw by by apply list_elem_of_filter.
    rewrite Hf in Hmw. by apply elem_of_nil in Hmw.
  - rewrite filter_app, filter_label_absent by done.
    by rewrite filter_cons_True by done.
Qed.

(** C7 (amended). The futures formatter returns null for a null table.
    For a table of price bars (no date column yet, one column under each
    of the labels close, high, low, open and volume, at most one called
    contract; any number of rows, zero included) and a contract that
    [int] accepts, it returns the table [future_table]: its columns are
    exactly date, contract, close, high, low, open and volume, it has as
    many rows as the input, in the index and in every column, its contract
    column holds the integer of the contract label on every row, and its
    date and price columns are the index and the bar columns of the
    input. *)
Theorem format_future_table (df : frame cell) (instrument : Instrument.t)
    (c : label) (k : Z) :
  price_bars df →
  int_of_label c = Ret k →
  _format_future None instrument (Some c) = Ret None
  ∧ _format_future (Some df) instrument (Some c)
    = Ret (Some (future_table df k))
  ∧ column_names (future_table df k)
    = ["date"; "contract"; "close"; "high"; "low"; "open"; "volume"]
  ∧ nrows (future_table df k) = nrows df
  ∧ well_formed (future_table df k)
  ∧ columns_named "contract" (future_table df k)
    = [("contract", replicate (nrows df) (int_cell k))].
Proof.
  intros (Hdate & Hfive & Hcontract & Hwf) Hk. split; [done|].
  assert (∀ n, n ∈ ["close"; "high"; "low"; "open"; "volume"] →
            columns_named n df = [(n, column n df)]
            ∧ (n, column n df) ∈ columns df) as Hbar.
  { intros n Hn. apply columns_named_once.
    rewrite Forall_forall in Hfive. by apply Hfive. }
  assert (∀ n, n ∈ ["close"; "high"; "low"; "open"; "volume"] →
            length (column n df) = nrows df) as Hlen.
  { intros n Hn. unfold well_formed in Hwf. rewrite Forall_forall in Hwf.
    apply (Hwf (n, column n df)). by apply Hbar. }
  assert (∀ n, n ∈ ["close"; "high"; "low"; "open"; "volume"] →
            n ≠ "contract" ∧ n ≠ "date") as Hlabel.
  { intros n Hn.
    repeat (apply elem_of_cons in Hn as [->|Hn]; [done|]).
    by apply elem_of_nil in Hn. }
  split; [|split; [done|split; [apply length_range_index|split]]].
  - unfold _format_future.
    set (df1 := {| index_name := None;
                   index := range_index (nrows df);
                   columns := ("date", index df) :: columns df |}).
    assert (reset_index (rename_index "date" df) = Ret df1) as ->.
    { unfold reset_index, has_column. cbn.
      by rewrite bool_decide_eq_false_2 by done. }
    rewrite Hk.
    assert (nrows df1 = nrows df) as Hrows by apply length_range_index.
    set (df2 := setitem "contract" (Series_const (int_cell k) df1) df1).
    assert (columns_named "date" df2 = [("date", index df)]) as Hd.
    { unfold df2. rewrite columns_named_setitem_ne by done.
      unfold columns_named, df1. cbn [columns].
      rewrite filter_cons_True by done. by rewrite filter_label_absent. }
    assert (columns_named "contract" df2
            = [("contract", replicate (nrows df) (int_cell k))]) as Hc.
    { unfold df2. rewrite columns_named_setitem_eq.
      - unfold Series_const. by rewrite Hrows.
      - unfold columns_named, df1. cbn [columns].
        by rewrite filter_cons_False by done. }
    assert (∀ n, n ∈ ["close"; "high"; "low"; "open"; "volume"] →
              columns_named n df2 = [(n, column n df)]) as Hb.
    { intros n Hn. destruct (Hlabel n Hn) as [Hnc Hnd].
      unfold df2. rewrite columns_named_setitem_ne by done.
      unfold columns_named at 1, df1. cbn [columns].
      rewrite filter_cons_False by (cbn; congruence). by apply Hbar. }
    unfold getitem_list. cbn [select]. rewrite Hd, Hc.
    rewrite !Hb by (repeat first [apply list_elem_of_here
                                 | apply list_elem_of_further]).
    done.
  - unfold well_formed, future_table, nrows. cbn [columns index].
    rewrite length_range_index.
    repeat (apply Forall_cons; split;
            [first [done
                   | apply length_replicate
                   | apply Hlen;
                     repeat first [apply list_elem_of_here
                                  | apply list_elem_of_further]]|]).
    apply Forall_nil_2.
  - done.
Qed.

(** What a call of [_format_other] leaves in the shared mapping: the
    entry for its column is added once the index of a non-null table has
    been reset, whatever happens afterwards. *)
Lemma format_other_mapping (column : string) (data : option (frame cell))
    (spot : option (Spot.t cell)) (st : State cell) :
  mapping_others (_format_other column data spot st).2
  = match data with
    | Some df =>
        match reset_index df with
        | Ret _ => <[column := "close"]> (mapping_others st)
        | Raise _ => mapping_others st
        end
    | None => mapping_others st
    end.
Proof.
  destruct data as [df|]; [|done].
  unfold _format_other, bind, lift, ret. destruct (reset_index df) as [df'|e]; [|done].
  destruct spot as [spot|]; cbn.
  - destruct (imul_column _ _ _) as [df2|e]; [|done].
    by destruct (getitem_list _ df2).
  - by destruct (getitem_list _ _).
Qed.

(** No call of [_format_other] takes an entry for "close" away. *)
Lemma format_other_calls_keep (column : string)
    (calls : list (string * option (frame cell) * option (Spot.t cell)))
    (st : State cell) :
  mapping_others st !! column = Some "close" →
  mapping_others (format_other_calls calls st) !! column = Some "close".
Proof.
  revert st. induction calls as [|[[column' data] spot] calls IH];
    intros st Hst; [done|].
  cbn [format_other_calls]. apply IH. rewrite format_other_mapping.
  destruct data as [df|]; [|done]. destruct (reset_index df); [|done].
  destruct (decide (column' = column)) as [->|Hne].
  - apply lookup_insert_eq.
  - by rewrite lookup_insert_ne.
Qed.

(** C10 (amended). A call of [_format_other] with value column [column]
    and a non-null table whose index can be reset writes the entry that
    renames [column] to "close" into the shared mapping of the "others"
    quote type, not into a copy; the entry is still there after any
    sequence of later calls, with whatever columns. *)
Theorem format_other_extends_mapping (column : string) (df df' : frame cell)
    (spot : option (Spot.t cell)) (st : State cell)
    (calls : list (string * option (frame cell) * option (Spot.t cell))) :
  reset_index df = Ret df' →
  mapping_others (_format_other column (Some df) spot st).2
    = <[column := "close"]> (mapping_others st)
  ∧ mapping_others
      (format_other_calls calls (_format_other column (Some df) spot st).2)
      !! column = Some "close".
Proof.
  intros Hreset.
  assert (mapping_others (_format_other column (Some df) spot st).2
          = <[column := "close"]> (mapping_others st)) as Hmap
    by (by rewrite format_other_mapping, Hreset).
  split; [exact Hmap|].
  apply format_other_calls_keep. rewrite Hmap. apply lookup_insert_eq.
Qed.

End Formatters.

(** * Further properties of the provider *)

Import Observe.

(** ** What the downloads leave alone *)

Section Appends.
Context {cell : Type} `{!Scalars cell} `{!Utility} (E : Env cell).

Lemma extends_refl (st : State cell) : extends st st.
Proof. exists []. rewrite app_nil_r. by destruct st. Qed.

Lemma extends_trans (st1 st2 st3 : State cell) :
  extends st1 st2 → extends st2 st3 → extends st1 st3.
Proof.
  intros [l1 ->] [l2 ->]. exists (l1 ++ l2)%list.
  unfold with_trace. cbn. by rewrite app_assoc.
Qed.

Lemma extends_emitted (st st' : State cell) :
  extends st st' → st' = with_trace (trace st ++ emitted st st')%list st.
Proof. intros [l ->]. by rewrite emitted_with_trace. Qed.


Lemma appends_ret {A} (a : A) : appends (cell := cell) (ret a).
Proof. intros st. apply extends_refl. Qed.

Lemma appends_raise {A} (e : exn) : appends (cell := cell) (raise (A := A) e).
Proof. intros st. apply extends_refl. Qed.

Lemma appends_lift {A} (r : res A) : appends (cell := cell) (lift r).
Proof. intros st. apply extends_refl. Qed.

Lemma appends_call {A} (ev : event cell) (reply : list (event cell) → res A) :
  appends (call ev reply).
Proof. intros st. by exists [ev]. Qed.

Lemma appends_bind {A B} (m : M cell A) (k : A → M cell B) :
  appends m → (∀ a, appends (k a)) → appends (bind m k).
Proof.
  intros Hm Hk st. unfold bind. specialize (Hm st).
  destruct (m st) as [[a|e] st1]; [|done].
  eapply extends_trans; [exact Hm|apply Hk].
Qed.

Lemma appends_try_except {A} (body : M cell A) (handler : exn → M cell A) :
  appends body → (∀ e, appends (handler e)) → appends (try_except body handler).
Proof.
  intros Hm Hk st. unfold try_except. specialize (Hm st).
  destruct (body st) as [[a|e] st1]; [done|].
  eapply extends_trans; [exact Hm|apply Hk].
Qed.

Lemma appends_getattr_self (bound : State cell → bool) (attr : string) :
  appends (getattr_self bound attr).
Proof. intros st. unfold getattr_self. destruct (bound st); apply extends_refl. Qed.

Lemma appends_year_reached (c : label) : appends (year_reached E c).
Proof.
  intros st. unfold year_reached, bind, lift.
  destruct (year_of_label c); apply extends_refl.
Qed.

(** The format function that [download_table] calls once it has found an
    instrument among the keywords. *)
Lemma appends_formnat_fn q_type kw (data : frame cell) instrument :
  kw_instrument kw = Some instrument → appends (formnat_fn q_type kw data).
Proof.
  intros Hk. unfold formnat_fn. rewrite Hk.
  destruct q_type, (kw_col kw), (kw_currency kw), (kw_spot kw);
    first [apply appends_raise | apply appends_lift].
Qed.

Lemma appends_download_table_try q_type database symbol db_symbol kw :
  appends (download_table_try E q_type database symbol db_symbol kw).
Proof.
  unfold download_table_try, log.
  apply appends_bind; [apply appends_call|intros _].
  apply appends_bind; [apply appends_getattr_self|intros _].
  apply appends_bind; [apply appends_call|intros rows].
  apply appends_bind; [apply appends_call|intros _].
  unfold instrument_exchange.
  destruct (kw_instrument kw) as [instrument|] eqn:Hk.
  - apply appends_bind; [apply appends_ret|intros exch].
    apply appends_bind; [by eapply appends_formnat_fn|intros table].
    apply appends_bind; [apply appends_call|intros _]. apply appends_call.
  - intros st. apply extends_refl.
Qed.

Lemma appends_download_table q_type database symbol db_symbol kw :
  appends (download_table E q_type database symbol db_symbol kw).
Proof.
  unfold download_table. apply appends_try_except.
  - apply appends_bind; [apply appends_download_table_try|intros _].
    apply appends_ret.
  - intros e. unfold download_table_except, log.
    destruct e; (apply appends_bind; [apply appends_call|intros _]);
      apply appends_ret.
Qed.

Lemma download_contract_table instrument c :
  download_contract E instrument c
  = download_table E QuotesType.futures
      (Instrument.quandl_database instrument) (api_symbol instrument c)
      (Some (Instrument.iqfeed_symbol instrument))
      {| kw_col := None; kw_currency := None; kw_spot := None;
         kw_instrument := Some instrument; kw_contract := Some c |}.
Proof.
  unfold download_contract, api_symbol. by destruct (contract_to_tuple c).
Qed.

Lemma appends_download_contract instrument c :
  appends (download_contract E instrument c).
Proof. rewrite download_contract_table. apply appends_download_table. Qed.

Lemma appends_pass_outcome instrument c :
  appends (pass_outcome E instrument c).
Proof.
  unfold pass_outcome.
  apply appends_bind; [apply appends_download_contract|intros [|]].
  - apply appends_ret.
  - apply appends_bind; [apply appends_year_reached|intros reached].
    apply appends_bind; [apply appends_download_contract|intros _].
    apply appends_ret.
Qed.

Lemma appends_outcomes n instrument c : appends (outcomes E n instrument c).
Proof.
  revert c. induction n as [|n IH]; intros c; cbn [outcomes].
  - apply appends_ret.
  - apply appends_bind; [apply appends_pass_outcome|intros o].
    apply appends_bind; [apply IH|intros os]. apply appends_ret.
Qed.

Lemma appends_walk_body instrument c fail_count :
  appends (walk_body E instrument c fail_count).
Proof.
  unfold walk_body.
  apply appends_bind; [apply appends_download_contract|intros [|]].
  - apply appends_bind; [apply appends_ret|intros ?]. apply appends_ret.
  - apply appends_bind; [|intros ?; apply appends_ret].
    apply appends_bind; [apply appends_year_reached|intros reached].
    apply appends_bind; [apply appends_download_contract|intros _].
    apply appends_ret.
Qed.

Lemma appends_walk fuel instrument c fail_count :
  appends (walk E fuel instrument c fail_count).
Proof.
  revert c fail_count. induction fuel as [|fuel IH]; intros c fail_count;
    cbn [walk]; destruct (fail_count <=? 12)%Z; try apply appends_ret.
  apply appends_bind; [apply appends_walk_body|intros next]. apply IH.
Qed.

(** X1. The download operations do nothing to the provider and to the
    shared state but add events to the trace: the session attributes and
    the module-level column mappings come out as they went in, whatever
    the arguments and whatever the outcome.  This holds for
    [download_table], [download_contract], [download_currency],
    [download_spot] and for the loop of [download_instrument]. *)
Theorem downloads_only_append :
  (∀ q_type database symbol db_symbol kw,
     appends (download_table E q_type database symbol db_symbol kw))
  ∧ (∀ instrument c, appends (download_contract E instrument c))
  ∧ (∀ currency, appends (download_currency E currency))
  ∧ (∀ spot, appends (download_spot E spot))
  ∧ (∀ fuel instrument c fail_count,
       appends (walk E fuel instrument c fail_count)).
Proof.
  split; [|split; [|split; [|split]]].
  - apply appends_download_table.
  - apply appends_download_contract.
  - intros currency. unfold download_currency.
    destruct (String.eqb _ _); [apply appends_ret|apply appends_download_table].
  - intros spot. apply appends_download_table.
  - apply appends_walk.
Qed.

End Appends.

(** ** What a download stores *)

Section Stores.
Context {cell : Type} `{!Scalars cell} `{!Utility} (E : Env cell).
Implicit Types (instrument : Instrument.t) (c : label) (st : State cell).

Lemma extends_hist_conn st st' : extends st st' → hist_conn st' = hist_conn st.
Proof. by intros [l ->]. Qed.

Lemma extends_lookup_conn st st' :
  extends st st' → lookup_conn st' = lookup_conn st.
Proof. by intros [l ->]. Qed.

Lemma formnat_fn_not_futures q_type kw (data : frame cell) instrument :
  q_type ≠ QuotesType.futures →
  kw_instrument kw = Some instrument →
  formnat_fn q_type kw data = raise wrong_arguments.
Proof.
  intros Hq Hk. unfold formnat_fn. rewrite Hk.
  by destruct q_type, (kw_col kw), (kw_currency kw), (kw_spot kw).
Qed.

(** X2. Whatever keywords it is given, [download_table] returns false for
    the currency and the other quote types, and hands nothing to the
    store: without the [instrument] keyword the store key cannot be built,
    and with it the currency and spot format functions reject their
    arguments. *)
Theorem download_table_stores_futures_only q_type database symbol db_symbol
    kw st :
  q_type ≠ QuotesType.futures →
  ∃ st', download_table E q_type database symbol db_symbol kw st
         = (Ret false, st')
         ∧ no_store_update st st'.
Proof.
  intros Hq. destruct (kw_instrument kw) as [instrument|] eqn:Hk;
    [|by apply download_table_no_instrument].
  rewrite download_table_result.
  destruct (hist_conn st) eqn:Hc.
  - destruct (vendor_answer E symbol st) as [rows|e] eqn:He.
    + rewrite download_table_try_rows with (rows := rows)
          (instrument := instrument) by done.
      cbn zeta. rewrite formnat_fn_not_futures with (instrument := instrument)
        by done.
      unfold bind, raise. eexists. split; [done|].
      unfold no_store_update. cbn [trace with_trace]. rewrite <- app_assoc.
      rewrite emitted_with_trace. intros key table Hin.
      repeat (apply elem_of_cons in Hin as [Hin|Hin]; [discriminate Hin|]).
      by apply elem_of_nil in Hin.
    + rewrite download_table_try_vendor_error with (e := e) by done.
      eexists. split; [done|].
      unfold no_store_update. cbn [trace with_trace]. rewrite <- app_assoc.
      rewrite emitted_with_trace. intros key table Hin.
      repeat (apply elem_of_cons in Hin as [Hin|Hin]; [discriminate Hin|]).
      by apply elem_of_nil in Hin.
  - rewrite download_table_try_unbound by done.
    eexists. split; [done|].
    unfold no_store_update. cbn [trace with_trace]. rewrite <- app_assoc.
    rewrite emitted_with_trace. intros key table Hin.
    repeat (apply elem_of_cons in Hin as [Hin|Hin]; [discriminate Hin|]).
    by apply elem_of_nil in Hin.
Qed.

(** A format function given a table never returns null. *)
Lemma format_future_some (df : frame cell) instrument contract table :
  _format_future (Some df) instrument contract = Ret table →
  ∃ out, table = Some out.
Proof.
  unfold _format_future. destruct (reset_index _) as [df1|e]; [|done].
  destruct contract as [c|]; [|done].
  destruct (int_of_label c) as [k|e]; [|done].
  destruct (getitem_list _ _) as [out|e]; [|done].
  intros [= <-]. by exists out.
Qed.

(** X3. When [download_contract] returns true, the sessions were open, the
    vendor delivered rows for the contract's ticker, and the call did
    exactly this: log the request, issue it, log its end, hand the
    formatted rows to the store under the key of the exchange and the
    IQFeed symbol, and log the write.  One table is stored per successful
    download, and no other event occurs. *)
Theorem download_contract_true instrument c st st' :
  download_contract E instrument c st = (Ret true, st') →
  ∃ rows out,
    hist_conn st = true
    ∧ vendor_answer E (api_symbol instrument c) st = Ret rows
    ∧ _format_future (Some (iloc_reversed (fut_df rows))) instrument (Some c)
      = Ret (Some out)
    ∧ emitted st st'
      = stored_events QuotesType.futures
          (Instrument.quandl_database instrument) (api_symbol instrument c)
          (download_key instrument) (Some out).
Proof.
  rewrite download_contract_table, download_table_result. cbn [default].
  destruct (hist_conn st) eqn:Hc;
    [|by rewrite download_table_try_unbound by done].
  destruct (vendor_answer E (api_symbol instrument c) st) as [rows|e] eqn:He;
    [|by rewrite download_table_try_vendor_error with (e := e) by done].
  rewrite download_table_try_rows with (rows := rows)
      (instrument := instrument) by done.
  cbn zeta. unfold formnat_fn. cbn [kw_col kw_currency kw_spot kw_instrument
                                    kw_contract].
  unfold bind at 1, lift.
  destruct (_format_future _ _ _) as [table|e] eqn:Hf; [|done].
  destruct (format_future_some _ _ _ _ Hf) as [out ->].
  unfold bind, call, log, call. cbn [trace with_trace].
  destruct (store_update_reply E _ _ _) as [[]|e]; [|done].
  intros [= <-]. exists rows, out. repeat split; try done.
  cbn [trace with_trace]. rewrite <- !app_assoc.
  by rewrite emitted_with_trace.
Qed.


End Stores.

(** ** The futures formatter on the vendor's rows *)

Section FutureTables.
Context {cell : Type} `{!Scalars cell} `{!Utility} (E : Env cell).
Implicit Types (instrument : Instrument.t) (c : label) (st : State cell).
Implicit Types (df : frame cell) (rows : list (bar cell)).

(** The futures formatter on the table assembled from the vendor's rows. *)
Lemma format_future_stored rows instrument c (k : Z) :
  int_of_label c = Ret k →
  _format_future (Some (iloc_reversed (fut_df rows))) instrument (Some c)
  = Ret (Some (stored_table rows k)).
Proof.
  intros Hk. unfold _format_future.
  assert (reset_index (rename_index "date" (iloc_reversed (fut_df rows)))
          = Ret {| index_name := None;
                   index := range_index (length rows);
                   columns :=
                     [("date", rev (date <$> rows));
                      ("open", rev (open_p <$> rows));
                      ("high", rev (high_p <$> rows));
                      ("low", rev (low_p <$> rows));
                      ("close", rev (close_p <$> rows));
                      ("volume", rev (prd_vlm <$> rows))] |}) as ->.
  { unfold reset_index, nrows. cbn. by rewrite length_rev, length_fmap. }
  rewrite Hk. unfold Series_const, nrows. cbn [index].
  by rewrite length_range_index.
Qed.

(** X4. For any rows of the vendor (none included) and any contract that
    [int] accepts, the table that [download_table] assembles and the
    futures formatter shapes is this one: a fresh integer index, the dates
    and the prices of the rows in reverse order, and the integer of the
    contract on every row, in the column order date, contract, close,
    high, low, open, volume. *)
Theorem format_future_rows rows instrument c (k : Z) :
  int_of_label c = Ret k →
  _format_future (Some (iloc_reversed (fut_df rows))) instrument (Some c)
  = Ret (Some (stored_table rows k)).
Proof. apply format_future_stored. Qed.

(** X5. With open sessions, rows from the vendor, a contract that [int]
    accepts and a store that takes the table, [download_contract] returns
    true, and what it has handed to the store, under the key of the
    exchange and the IQFeed symbol, is the table of these rows in reverse
    order, tagged with the contract. *)
Theorem download_contract_stores instrument c (k : Z) rows st :
  hist_conn st = true →
  vendor_answer E (api_symbol instrument c) st = Ret rows →
  int_of_label c = Ret k →
  store_update_reply E (download_key instrument) (Some (stored_table rows k))
    (trace st
       ++ [Log INFO ("Downloading " +:+ api_symbol instrument c
                       +:+ " from IQFeed");
           RequestDailyData (api_symbol instrument c) (255 * 3)%Z;
           Log INFO ("Finished downloading " +:+ api_symbol instrument c
                       +:+ " from IQFeed")])%list
  = Ret () →
  download_contract E instrument c st
  = (Ret true,
     with_trace
       (trace st
          ++ stored_events QuotesType.futures
               (Instrument.quandl_database instrument)
               (api_symbol instrument c) (download_key instrument)
               (Some (stored_table rows k)))%list
       st).
Proof.
  intros Hc He Hk Hstore.
  rewrite download_contract_table, download_table_result. cbn [default].
  rewrite download_table_try_rows with (rows := rows)
      (instrument := instrument) by done.
  cbn zeta. unfold formnat_fn.
  cbn [kw_col kw_currency kw_spot kw_instrument kw_contract].
  unfold bind at 1, lift. rewrite (format_future_stored rows instrument c k Hk).
  unfold bind, call, log, call. cbn [trace with_trace].
  unfold id. unfold download_key in Hstore. rewrite Hstore.
  unfold stored_events, download_key. by rewrite <- !app_assoc.
Qed.

End FutureTables.

(** ** When the formatters succeed, and what they leave behind *)

Section FormatterEdges.
Context {cell : Type} `{!Scalars cell}.
Implicit Types (df : frame cell) (cols : list (string * list cell)).
Implicit Types (n : string) (v : list cell).

Lemma filter_label_nil cols n :
  filter (λ c, c.1 = n) cols = [] ↔ n ∉ cols.*1.
Proof.
  split; [|apply filter_label_absent].
  intros Hnil Hin. apply list_elem_of_fmap in Hin as ([m v] & Heq & Hin).
  cbn in Heq. subst n.
  assert ((m, v) ∈ filter (λ c : string * list cell, c.1 = m) cols) as Hf
    by by apply list_elem_of_filter.
  rewrite Hnil in Hf. by apply elem_of_nil in Hf.
Qed.

(** Selecting columns succeeds exactly when every label asked for is a
    column; otherwise the first label that is not raises [KeyError]. *)
Lemma select_ret names df :
  (∃ cs, select names df = Ret cs) ↔ names ⊆ column_names df.
Proof.
  induction names as [|n names IH]; cbn [select].
  - split; [|by exists []]. intros _ x Hx. by apply elem_of_nil in Hx.
  - unfold columns_named.
    destruct (filter (λ c, c.1 = n) (columns df)) as [|col cols'] eqn:Hf.
    + apply filter_label_nil in Hf. split; [by intros [cs ?]|].
      intros Hsub. destruct Hf. apply Hsub, list_elem_of_here.
    + assert (n ∈ column_names df) as Hn.
      { destruct (decide (n ∈ column_names df)) as [|Hnin]; [done|].
        apply filter_label_nil in Hnin. by rewrite Hnin in Hf. }
      destruct (select names df) as [rest|e].
      * split; [intros _|by eexists].
        intros x Hx. apply elem_of_cons in Hx as [->|Hx]; [done|].
        by apply (proj1 IH); [eexists|].
      * split; [by intros [cs ?]|]. intros Hsub.
        destruct (proj2 IH) as [cs ?]; [|done].
        intros x Hx. apply Hsub. by apply list_elem_of_further.
Qed.

Lemma setitem_names n v df x :
  x ∈ column_names (setitem n v df) ↔ x = n ∨ x ∈ column_names df.
Proof.
  unfold setitem, column_names, has_column. cbn. case_bool_decide as Hin.
  - assert (((λ c : string * list cell,
                if decide (c.1 = n) then (n, v) else c) <$> columns df).*1
            = (columns df).*1) as ->.
    { rewrite <- list_fmap_compose. apply list_fmap_ext.
      intros i [m w] _. cbn. by case_decide. }
    split; [auto|]. by intros [->|].
  - rewrite fmap_app, elem_of_app. cbn. rewrite list_elem_of_singleton.
    tauto.
Qed.

(** X6. Given a table and a contract that [int] accepts, the futures
    formatter returns a table exactly when the input has the five bar
    columns close, high, low, open and volume and no column called date;
    in every other case it raises ([ValueError] for the date column that
    cannot be inserted, [KeyError] for a missing bar column). *)
Theorem format_future_succeeds_iff df (instrument : Instrument.t) (c : label)
    (k : Z) :
  int_of_label c = Ret k →
  (∃ out, _format_future (Some df) instrument (Some c) = Ret (Some out))
  ↔ ("date" ∉ column_names df)
    ∧ ["close"; "high"; "low"; "open"; "volume"] ⊆ column_names df.
Proof.
  intros Hk. unfold _format_future, reset_index, rename_index. cbn.
  unfold has_column at 1, column_names at 1. cbn [columns].
  case_bool_decide as Hdate.
  { split; [by intros [out ?]|]. by intros [Hnd _]. }
  rewrite Hk. unfold getitem_list.
  set (df1 := {| index_name := None; index := _; columns := _ |}).
  set (df2 := setitem "contract" _ df1).
  pose proof (select_ret
                ["date"; "contract"; "close"; "high"; "low"; "open"; "volume"]
                df2) as Hsel.
  assert (∀ x, x ∈ column_names df2
               ↔ x = "contract" ∨ x = "date" ∨ x ∈ column_names df) as Hnames.
  { intros x. unfold df2. rewrite setitem_names.
    unfold df1, column_names. cbn. by rewrite elem_of_cons. }
  split.
  - intros [out Hout]. split; [done|].
    assert (["date"; "contract"; "close"; "high"; "low"; "open"; "volume"]
              ⊆ column_names df2) as Hsub.
    { apply Hsel. destruct (select _ df2) as [cs|e]; [by eexists|done]. }
    intros x Hx.
    assert (x ∈ column_names df2) as Hx2.
    { apply Hsub. by do 2 apply list_elem_of_further. }
    apply Hnames in Hx2 as [->|[->|Hx2]]; [| |done];
      repeat (apply elem_of_cons in Hx as [Hx|Hx]; [discriminate Hx|]);
      by apply elem_of_nil in Hx.
  - intros [_ Hsub].
    destruct (proj2 Hsel) as [cs Hcs].
    { intros x Hx. apply Hnames.
      apply elem_of_cons in Hx as [->|Hx]; [auto|].
      apply elem_of_cons in Hx as [->|Hx]; [auto|].
      right. right. by apply Hsub. }
    rewrite Hcs. by eexists.
Qed.

(** X7. The currency formatter leaves the provider and the shared state
    as they are, whatever table and currency it is given and whether it
    returns or raises: unlike [_format_other], it only reads the column
    mapping. *)
Theorem format_currency_keeps_state (data : option (frame cell))
    (currency : Currency.t cell) (st : State cell) :
  (_format_currency data currency st).2 = st.
Proof.
  destruct data as [df|]; [|done].
  unfold _format_currency, bind, lift, ret.
  destruct (reset_index df) as [df1|e]; [|done].
  destruct (getitem_list _ _) as [cols|e]; [|done].
  destruct (Currency.quandl_rate currency cols) as [rates|e]; [|done].
  destruct (setitem_list _ rates _) as [df2|e]; [|done].
  by destruct (getitem_list _ df2).
Qed.

Lemma two_distinct_elements {A} (l : list A) (a b : A) :
  a ∈ l → b ∈ l → a ≠ b → (2 ≤ length l)%nat.
Proof.
  destruct l as [|x [|y l]]; cbn; [| |lia].
  - intros Ha. by apply elem_of_nil in Ha.
  - intros Ha Hb. apply list_elem_of_singleton in Ha, Hb. congruence.
Qed.

(** Counting the columns with a label, after the labels went through [g]. *)
Lemma length_filter_relabel (f : string * list cell → string * list cell)
    (g : string → string) n cols :
  (∀ c, (f c).1 = g c.1) →
  length (filter (λ c, c.1 = n) (f <$> cols))
  = length (filter (λ c, g c.1 = n) cols).
Proof.
  intros Hf. induction cols as [|col cols IH]; [done|].
  rewrite fmap_cons, !filter_cons, Hf.
  destruct (decide (g col.1 = n)); cbn; by rewrite IH.
Qed.

Lemma length_filter_same_label n cols :
  length (filter (λ c, c.1 = n) (filter (λ c, c.1 = n) cols))
  = length (filter (λ c : string * list cell, c.1 = n) cols).
Proof.
  induction cols as [|col cols IH]; [done|].
  rewrite filter_cons. destruct (decide (col.1 = n)) as [Heq|]; [|done].
  rewrite filter_cons, decide_True by done. cbn. by rewrite IH.
Qed.

(** X8. The entry that an earlier call of [_format_other] left in the
    shared mapping shows in later calls: when the mapping renames
    [column_x] to "close", a call for another column [column_y] on a table
    that has both columns returns, if it returns a table, one with at
    least two columns called close. *)
Theorem format_other_leak_shows (column_x column_y : string) df
    (spot : option (Spot.t cell)) (st st' : State cell) (out : frame cell) :
  column_x ≠ column_y →
  mapping_others st !! column_x = Some "close" →
  column_x ∈ column_names df →
  column_y ∈ column_names df →
  _format_other column_y (Some df) spot st = (Ret (Some out), st') →
  (2 ≤ length (columns_named "close" out))%nat.
Proof.
  intros Hne Hx Hinx Hiny. unfold _format_other, bind at 1, lift.
  destruct (reset_index df) as [df1|e] eqn:Hreset; [|done].
  set (m := <[column_y := "close"]> (mapping_others st)).
  assert (2 ≤ length (columns_named "close" (rename_columns m df1)))%nat
    as Hren.
  { unfold columns_named, rename_columns. cbn [columns].
    rewrite (length_filter_relabel _ (λ l, default l (m !! l))) by done.
    unfold column_names in Hinx, Hiny.
    apply list_elem_of_fmap in Hinx as ([x vx] & Hxeq & Hinx).
    apply list_elem_of_fmap in Hiny as ([y vy] & Hyeq & Hiny).
    cbn in Hxeq, Hyeq. subst x y.
    assert (columns df ⊆ columns df1) as Hsub.
    { unfold reset_index in Hreset. destruct (has_column _ df); [done|].
      injection Hreset as <-. cbn. intros c Hc. by apply list_elem_of_further. }
    apply (two_distinct_elements _ (column_x, vx) (column_y, vy));
      [| |congruence].
    - apply list_elem_of_filter. split; [|by apply Hsub]. cbn.
      unfold m. by rewrite lookup_insert_ne, Hx.
    - apply list_elem_of_filter. split; [|by apply Hsub]. cbn.
      unfold m. by rewrite lookup_insert_eq. }
  assert (∀ df3, (∃ k, imul_column "close" k (rename_columns m df1) = Ret df3)
                 ∨ df3 = rename_columns m df1 →
                 (2 ≤ length (columns_named "close" df3))%nat) as Hmul.
  { intros df3 [[k Hk]| ->]; [|done]. unfold imul_column in Hk.
    destruct (has_column _ _); [|done]. injection Hk as <-.
    unfold columns_named. cbn [columns].
    rewrite (length_filter_relabel _ id); [exact Hren|].
    intros c. by case_decide. }
  intros Hrun.
  assert (∃ df3, (2 ≤ length (columns_named "close" df3))%nat
                 ∧ getitem_list ["date"; "close"] df3 = Ret out)
    as (df3 & Hdf3 & Hget).
  { revert Hrun. unfold bind, lift, ret. fold m.
    destruct spot as [spot|].
    - destruct (imul_column "close" (Spot.multiplier spot) _) as [df3|e]
        eqn:Hk; [|done].
      destruct (getitem_list _ df3) as [out'|e] eqn:Hget; [|done].
      intros [= <- _]. exists df3. split; [|done]. apply Hmul. eauto.
    - destruct (getitem_list _ _) as [out'|e] eqn:Hget; [|done].
      intros [= <- _]. eexists. split; [|exact Hget]. apply Hmul. by right. }
  unfold getitem_list in Hget. cbn [select] in Hget.
  destruct (columns_named "date" df3) as [|d ds]; [done|].
  destruct (columns_named "close" df3) as [|c1 cs1] eqn:Hclose; [done|].
  injection Hget as <-. unfold columns_named at 1. cbn [columns].
  change (d :: ds ++ c1 :: cs1 ++ [])%list
    with ((d :: ds) ++ (c1 :: cs1) ++ [])%list.
  rewrite app_nil_r, filter_app, length_app.
  unfold columns_named in Hclose. rewrite <- Hclose, length_filter_same_label.
  rewrite Hclose. lia.
Qed.

End FormatterEdges.

(** ** Runs of the walk *)

Section WalkRuns.
Context {cell : Type} `{!Scalars cell} `{!Utility} (E : Env cell).
Implicit Types (instrument : Instrument.t) (c : label) (st : State cell).
Implicit Types (os : list outcome).




Lemma count_from_uncounted os :
  Forall (λ o, o ≠ Missing true) os → count_from 0 os = 0%Z.
Proof.
  induction os as [|o os IH]; [done|]. intros Hall.
  apply Forall_cons in Hall as [Ho Hall].
  by destruct o as [|[]]; [apply IH| |apply IH].
Qed.

(** X10. Passes that download their contract, or that fail on a contract
    whose year lies before the current year, never end the walk, however
    many they are: after [n] such passes the loop is still running. *)
Theorem walk_goes_on_uncounted n instrument c st os st' :
  outcomes E n instrument c st = (Ret os, st') →
  Forall (λ o, o ≠ Missing true) os →
  walk E n instrument c 0 st = (Ret None, st').
Proof.
  intros Hos Hall. apply (walk_running E n _ _ _ _ os); [done|].
  intros m Hm. rewrite count_from_uncounted; [done|]. by apply Forall_take.
Qed.

End WalkRuns.

(** ** Runs of [download_instrument] *)

Section InstrumentRuns.
Context {cell : Type} `{!Scalars cell} `{!Utility} (E : Env cell).
Implicit Types (instrument : Instrument.t) (c : label) (st : State cell).
Implicit Types (os : list outcome).

(** [download_instrument] up to the start of the walk, when both sessions
    open. *)
Lemma download_instrument_connected fuel instrument recent st :
  connect_reply E HistoryConn (trace st) = Ret () →
  connect_reply E LookupConn (trace st ++ [Connect HistoryConn])%list = Ret () →
  download_instrument E fuel instrument recent st
  = (let* c := lift (walk_start instrument recent) in
     log INFO (walk_start_message instrument) >>
     let* exit := walk E fuel instrument c 0 in
     match exit with
     | None => ret None
     | Some _ =>
         log DEBUG (walk_end_message instrument) >>
         disconnect E >>
         ret (Some true)
     end)
      (with_trace (trace st ++ [Connect HistoryConn; Connect LookupConn])%list
         (with_conns true true st)).
Proof.
  intros Hh Hl. unfold download_instrument, bind at 1, connect, call.
  cbn [trace with_trace with_conns]. rewrite Hh. cbn [trace with_trace].
  rewrite Hl. cbn [negb]. rewrite <- app_assoc. cbn [app].
  unfold walk_start. by destruct recent.
Qed.

(** X11. A refresh of an instrument whose roll progression is empty opens
    both sessions and then raises [IndexError]: nothing is requested from
    the vendor, and the sessions are not closed. *)
Theorem refresh_without_roll_progression fuel instrument st :
  connect_reply E HistoryConn (trace st) = Ret () →
  connect_reply E LookupConn (trace st ++ [Connect HistoryConn])%list = Ret () →
  Instrument.roll_progression instrument = [] →
  download_instrument E fuel instrument true st
  = (Raise (IndexError "single positional indexer is out-of-bounds"),
     with_trace (trace st ++ [Connect HistoryConn; Connect LookupConn])%list
       (with_conns true true st)).
Proof.
  intros Hh Hl Hroll. rewrite download_instrument_connected by done.
  unfold bind, lift, walk_start, recent_start. by rewrite Hroll.
Qed.

(** X12. A full download starts from the text of the first contract.
    When the vendor answers the request for that contract with an error,
    [download_instrument] raises [TypeError] from the year test: it has
    opened both sessions, logged and sent this one request, and it closes
    no session. *)
Theorem full_download_first_contract_missing fuel instrument st (e : exn) :
  let c := StrLabel (pretty (Instrument.first_contract instrument)) in
  let st0 := walk_start_state instrument st in
  connect_reply E HistoryConn (trace st) = Ret () →
  connect_reply E LookupConn (trace st ++ [Connect HistoryConn])%list = Ret () →
  vendor_answer E (api_symbol instrument c) st0 = Raise e →
  download_instrument E (S fuel) instrument false st
  = (Raise (TypeError "unsupported operand type(s) for /: 'str' and 'int'"),
     with_trace
       (trace st0
          ++ [Log INFO ("Downloading " +:+ api_symbol instrument c
                          +:+ " from IQFeed");
              RequestDailyData (api_symbol instrument c) (255 * 3)%Z;
              warning_for (api_symbol instrument c) e])%list
       st0)
  ∧ sessions (emitted st (download_instrument E (S fuel) instrument false st).2)
    = [Connect HistoryConn; Connect LookupConn].
Proof.
  intros c st0 Hh Hl He.
  assert (download_contract E instrument c st0
          = (Ret false,
             with_trace
               (trace st0
                  ++ [Log INFO ("Downloading " +:+ api_symbol instrument c
                                  +:+ " from IQFeed");
                      RequestDailyData (api_symbol instrument c) (255 * 3)%Z;
                      warning_for (api_symbol instrument c) e])%list
               st0)) as Hfirst.
  { rewrite download_contract_table, download_table_result. cbn [default].
    rewrite download_table_try_vendor_error with (e := e) by done.
    cbn [trace with_trace]. by rewrite <- app_assoc. }
  assert (download_instrument E (S fuel) instrument false st
          = (Raise (TypeError
                      "unsupported operand type(s) for /: 'str' and 'int'"),
             with_trace
               (trace st0
                  ++ [Log INFO ("Downloading " +:+ api_symbol instrument c
                                  +:+ " from IQFeed");
                      RequestDailyData (api_symbol instrument c) (255 * 3)%Z;
                      warning_for (api_symbol instrument c) e])%list
               st0)) as Hrun.
  { rewrite download_instrument_connected by done.
    unfold bind at 1, lift, walk_start. unfold bind at 1, log, call.
    cbn [trace with_trace]. rewrite <- app_assoc. cbn [app].
    unfold bind at 1. cbn [walk]. unfold bind at 1.
    change (with_trace _ (with_trace _ (with_conns true true st))) with st0.
    change (0 <=? 12)%Z with true. cbn beta iota. subst c.
    by rewrite (walk_body_text_failure E instrument _ 0 st0 _ Hfirst). }
  split; [exact Hrun|]. rewrite Hrun. cbn [snd].
  unfold st0, walk_start_state. cbn [trace with_trace].
  rewrite <- app_assoc. by rewrite emitted_with_trace.
Qed.

(** X13. When both sessions open, the walk meets [n] outcomes of which
    the last completes thirteen counted failures in a row, and both
    sessions close, [download_instrument] returns true for any fuel from
    [n] on: after the walk it logs the end of the download and disconnects
    the history session and then the lookup session, and does nothing
    else. *)
Theorem download_instrument_returns fuel instrument recent st c n os st1 :
  let st0 := walk_start_state instrument st in
  let bye := Log (cell := cell) DEBUG (walk_end_message instrument) in
  connect_reply E HistoryConn (trace st) = Ret () →
  connect_reply E LookupConn (trace st ++ [Connect HistoryConn])%list = Ret () →
  walk_start instrument recent = Ret c →
  outcomes E n instrument c st0 = (Ret os, st1) →
  counted_first 13 n os →
  disconnect_reply E HistoryConn (trace st1 ++ [bye])%list = Ret () →
  disconnect_reply E LookupConn
    (trace st1 ++ [bye; Disconnect HistoryConn])%list = Ret () →
  (n ≤ fuel)%nat →
  download_instrument E fuel instrument recent st
  = (Ret (Some true),
     with_trace
       (trace st1 ++ [bye; Disconnect HistoryConn; Disconnect LookupConn])%list
       st1).
Proof.
  intros st0 bye Hh Hl Hstart Hos [H13 Hbefore] Hdh Hdl Hfuel.
  rewrite download_instrument_connected by done.
  unfold bind at 1, lift. rewrite Hstart.
  unfold bind at 1, log at 1, call at 1. cbn [trace with_trace].
  rewrite <- app_assoc. cbn [app].
  change (with_trace _ (with_trace _ (with_conns true true st))) with st0.
  unfold bind at 1.
  rewrite (walk_exit E n instrument c 0 st0 os st1 fuel Hos); [| | |done].
  - pose proof (appends_outcomes E n instrument c st0) as Hext.
    rewrite Hos in Hext. cbn [snd] in Hext.
    pose proof (extends_hist_conn _ _ Hext) as Hhc.
    pose proof (extends_lookup_conn _ _ Hext) as Hlc.
    subst bye.
    unfold bind, log, call, disconnect, bind, getattr_self, call, ret.
    cbn [trace with_trace hist_conn lookup_conn].
    rewrite Hhc. change (hist_conn st0) with true.
    cbn [trace with_trace hist_conn lookup_conn].
    rewrite Hdh, Hlc. change (lookup_conn st0) with true.
    cbn [trace with_trace]. rewrite <- app_assoc. cbn [app]. rewrite Hdl.
    by rewrite <- app_assoc.
  - intros m Hm. specialize (Hbefore m Hm). unfold counted in Hbefore. lia.
  - unfold counted in H13. lia.
Qed.

End InstrumentRuns.

(** ** Labels as text *)

Section LabelText.

Lemma digit_of_pretty_char (d : N) :
  (d < 10)%N → digit_of (pretty_N_char d) = Some (Z.of_N d).
Proof.
  intros Hd. destruct d as [|p]; [done|].
  do 4 (destruct p as [p|p|]; try done; try lia).
Qed.

Lemma int_of_str_digit (d : N) (rest : string) :
  (d < 10)%N →
  int_of_str (String (pretty_N_char d) rest)
  = parse_digits 0 (String (pretty_N_char d) rest).
Proof.
  intros Hd. destruct d as [|p]; [done|].
  do 4 (destruct p as [p|p|]; try done; try lia).
Qed.

Lemma pretty_N_go_first (x : N) (s : string) :
  (0 < x)%N →
  ∃ d rest, (d < 10)%N ∧ pretty_N_go x s = String (pretty_N_char d) rest.
Proof.
  revert s. induction (N.lt_wf_0 x) as [x _ IH]; intros s Hx.
  rewrite pretty_N_go_step by done.
  destruct (decide (x < 10)%N) as [Hlt|Hge].
  - rewrite N.div_small, pretty_N_go_0 by done.
    exists (x `mod` 10)%N, s. split; [|done]. by apply N.mod_lt.
  - apply IH.
    + apply N.div_lt; lia.
    + apply N.div_str_pos. lia.
Qed.

(** Reading back the digits that [str] printed. *)
Lemma parse_digits_pretty (x : N) :
  (0 < x)%N →
  ∃ k : Z, (0 ≤ k)%Z ∧ ∀ (acc : Z) (s : string),
    parse_digits acc (pretty_N_go x s)
    = parse_digits (acc * 10 ^ k + Z.of_N x)%Z s.
Proof.
  induction (N.lt_wf_0 x) as [x _ IH]; intros Hx.
  assert (Z.of_N x = 10 * Z.of_N (x `div` 10) + Z.of_N (x `mod` 10))%Z as Hdm.
  { change 10%Z with (Z.of_N 10). rewrite <- N2Z.inj_mul, <- N2Z.inj_add.
    f_equal. by apply N.div_mod. }
  assert (x `mod` 10 < 10)%N as Hmod by by apply N.mod_lt.
  destruct (decide (x < 10)%N) as [Hlt|Hge].
  - exists 1%Z. split; [done|]. intros acc s.
    rewrite pretty_N_go_step by done.
    rewrite N.div_small, pretty_N_go_0 by done. cbn [parse_digits].
    rewrite digit_of_pretty_char by done. f_equal.
    rewrite N.div_small in Hdm by done. cbn in Hdm. lia.
  - destruct (IH (x `div` 10)%N) as (k & Hk & Hparse).
    + apply N.div_lt; lia.
    + apply N.div_str_pos. lia.
    + exists (k + 1)%Z. split; [lia|]. intros acc s.
      rewrite pretty_N_go_step by done. rewrite Hparse. cbn [parse_digits].
      rewrite digit_of_pretty_char by done. f_equal.
      rewrite Z.pow_add_r by lia. lia.
Qed.

Lemma int_of_str_pretty_pos (p : positive) :
  ∃ d rest, (d < 10)%N
    ∧ pretty (N.pos p) = String (pretty_N_char d) rest
    ∧ parse_digits 0 (pretty (N.pos p)) = Some (Z.pos p).
Proof.
  unfold pretty, pretty_N. case_decide; [done|].
  destruct (pretty_N_go_first (N.pos p) EmptyString) as (d & rest & Hd & Hs);
    [done|].
  destruct (parse_digits_pretty (N.pos p)) as (k & Hk & Hparse); [done|].
  exists d, rest. split; [done|]. split; [done|].
  rewrite Hparse. cbn [parse_digits]. f_equal. all: lia.
Qed.

Lemma int_of_str_pretty (n : Z) : int_of_str (pretty n) = Some n.
Proof.
  destruct n as [|p|p]; [done| |];
    destruct (int_of_str_pretty_pos p) as (d & rest & Hd & Hs & Hparse);
    unfold pretty, pretty_Z, pretty at 1, pretty_positive.
  - rewrite Hs, int_of_str_digit, <- Hs by done. exact Hparse.
  - rewrite Hs.
    change (int_of_str ("-" +:+ String (pretty_N_char d) rest))
      with (Z.opp <$> parse_digits 0 (String (pretty_N_char d) rest)).
    by rewrite <- Hs, Hparse.
Qed.

End LabelText.

Section FirstContract.
Context {cell : Type} `{!Scalars cell}.

(** X14. The text of a contract label is read back as the number it was
    printed from: [int(str(n))] is [n] for every integer.  So the table of
    the first contract of a full download, whose label travels as text, is
    tagged with [instrument.first_contract] itself. *)
Theorem format_future_text_label (rows : list (bar cell))
    (instrument : Instrument.t) (n : Z) :
  int_of_label (StrLabel (pretty n)) = Ret n
  ∧ _format_future (Some (iloc_reversed (fut_df rows))) instrument
      (Some (StrLabel (pretty n)))
    = Ret (Some (stored_table rows n)).
Proof.
  assert (int_of_label (StrLabel (pretty n)) = Ret n) as Hint
    by (unfold int_of_label; by rewrite int_of_str_pretty).
  split; [exact Hint|]. by apply format_future_stored.
Qed.

End FirstContract.

(** ** Downloads that fail *)

Section FailedDownloads.
Context {cell : Type} `{!Scalars cell} `{!Utility} (E : Env cell).
Implicit Types (instrument : Instrument.t) (c : label) (st : State cell).

(** X15. When the store refuses the table, [download_contract] returns
    false like for a contract without data: the exception of the store's
    update is caught and logged as a warning, after the vendor was asked
    and the table was handed over. *)
Theorem download_contract_store_failure instrument c (k : Z)
    (rows : list (bar cell)) st (e : exn) :
  hist_conn st = true →
  vendor_answer E (api_symbol instrument c) st = Ret rows →
  int_of_label c = Ret k →
  store_update_reply E (download_key instrument) (Some (stored_table rows k))
    (trace st
       ++ [Log INFO ("Downloading " +:+ api_symbol instrument c
                       +:+ " from IQFeed");
           RequestDailyData (api_symbol instrument c) (255 * 3)%Z;
           Log INFO ("Finished downloading " +:+ api_symbol instrument c
                       +:+ " from IQFeed")])%list
  = Raise e →
  download_contract E instrument c st
  = (Ret false,
     with_trace
       (trace st
          ++ [Log INFO ("Downloading " +:+ api_symbol instrument c
                          +:+ " from IQFeed");
              RequestDailyData (api_symbol instrument c) (255 * 3)%Z;
              Log INFO ("Finished downloading " +:+ api_symbol instrument c
                          +:+ " from IQFeed");
              StoreUpdate (download_key instrument)
                (Some (stored_table rows k));
              warning_for (api_symbol instrument c) e])%list
       st).
Proof.
  intros Hc He Hk Hstore.
  rewrite download_contract_table, download_table_result. cbn [default].
  rewrite download_table_try_rows with (rows := rows)
      (instrument := instrument) by done.
  cbn zeta. unfold formnat_fn.
  cbn [kw_col kw_currency kw_spot kw_instrument kw_contract].
  unfold bind at 1, lift. rewrite (format_future_stored rows instrument c k Hk).
  unfold bind, call, log, call. cbn [trace with_trace].
  unfold id. unfold download_key in Hstore. rewrite Hstore.
  cbn [trace with_trace]. unfold download_key. by rewrite <- !app_assoc.
Qed.

(** X16. On a provider whose history session was never created, every
    [download_table] returns false without a request to the vendor and
    without a store update: the missing attribute raises inside the [try]
    block, and the call logs the download and the warning, nothing else.
    [download_currency] and [download_spot] do not connect by
    themselves. *)
Theorem download_table_unconnected q_type database symbol db_symbol kw st :
  hist_conn st = false →
  download_table E q_type database symbol db_symbol kw st
  = (Ret false,
     with_trace
       (trace st
          ++ [Log INFO ("Downloading " +:+ symbol +:+ " from IQFeed");
              warning_for symbol
                (AttributeError
                   "'IQFeedProvider' object has no attribute 'hist_conn'")])%list
       st).
Proof.
  intros Hc. rewrite download_table_result, download_table_try_unbound by done.
  cbn [trace with_trace]. by rewrite <- app_assoc.
Qed.

End FailedDownloads.
(** * The embedding at work

    The properties above, applied to the concrete collaborators of [Demo],
    and runs of the provider that the specification does not describe. *)

Import Demo.

(** A successful download of the December 2020 corn contract: the two bars
    are stored oldest first, tagged with the contract. *)
Example download_contract_two_bars :
  (download_contract two_bars corn (IntLabel 202012) connected).1 = Ret true
  ∧ emitted connected corn_downloaded
    = [Log INFO "Downloading @CZ20 from IQFeed";
       RequestDailyData "@CZ20" 765;
       Log INFO "Finished downloading @CZ20 from IQFeed";
       StoreUpdate ("iqfeed", QuotesType.futures, "CBOT_@C")
         (Some (Frame None [0; 1]
                  [("date", [20200103; 20200102]);
                   ("contract", [202012; 202012]);
                   ("close", [11; 11]); ("high", [12; 12]);
                   ("low", [9; 9]); ("open", [10; 10]);
                   ("volume", [100; 100])]%Z));
       Log DEBUG "Wrote data for CME/@CZ20"].
Proof. split; by vm_compute. Qed.

(** A refresh of corn when the vendor has no data: the walk starts at
    201907, the six contracts of 2019 are not counted, the thirteen that
    follow are, and the provider disconnects and returns true. *)
Example download_instrument_recent_no_data :
  (download_instrument no_data 18 corn true (fresh ∅)).1 = Ret None
  ∧ (download_instrument no_data 19 corn true (fresh ∅)).1 = Ret (Some true)
  ∧ (walk no_data 19 corn (IntLabel 201907) 0 connected).1
    = Ret (Some (IntLabel 202102, 13%Z)).
Proof. repeat split; by vm_compute. Qed.

(** C1, as the spec states it. With a vendor that has no data for any
    contract and contracts of the current year, 12 failures in a row have
    been counted after 12 passes and not before, and yet the loop does not
    end there: it runs a thirteenth pass. *)
Lemma walk_goes_on_after_12_counted :
  ∃ st',
    outcomes Demo.no_data 12 Demo.corn (IntLabel 202001) Demo.connected
    = (Ret (replicate 12 (Missing true)), st')
    ∧ counted_first 12 12 (replicate 12 (Missing true))
    ∧ ¬ walk_ends_after Demo.no_data Demo.corn (IntLabel 202001)
          Demo.connected 12 st'
    ∧ (walk Demo.no_data 12 Demo.corn (IntLabel 202001) 0 Demo.connected).1
      = Ret None
    ∧ (walk Demo.no_data 13 Demo.corn (IntLabel 202001) 0 Demo.connected).1
      = Ret (Some (IntLabel 202102, 13%Z)).
Proof.
  eexists. split; [by vm_compute|]. split; [|split; [|split]].
  - split; [reflexivity|]. intros m Hm.
    do 12 (destruct m as [|m]; [reflexivity|]). lia.
  - intros [[final Hend] _]. specialize (Hend 12%nat (le_n _)).
    vm_compute in Hend. discriminate Hend.
  - by vm_compute.
  - by vm_compute.
Qed.

(** Thirteen counted failures in a row: the walk ends after the thirteenth
    pass. *)
Lemma walk_ends_at_13_counted_witness :
  outcomes Demo.no_data 13 Demo.corn (IntLabel 202001) Demo.connected
  = (Ret (replicate 13 (Missing true)),
     (outcomes Demo.no_data 13 Demo.corn (IntLabel 202001) Demo.connected).2)
  ∧ walk_ends_after Demo.no_data Demo.corn (IntLabel 202001) Demo.connected 13
      (outcomes Demo.no_data 13 Demo.corn (IntLabel 202001) Demo.connected).2.
Proof.
  assert (outcomes Demo.no_data 13 Demo.corn (IntLabel 202001) Demo.connected
          = (Ret (replicate 13 (Missing true)),
             (outcomes Demo.no_data 13 Demo.corn (IntLabel 202001)
                Demo.connected).2)) as Hos by (vm_compute; reflexivity).
  split; [exact Hos|].
  apply (walk_ends_at_13_counted _ _ _ _ _ _ _ Hos).
  split; [reflexivity|]. intros m Hm.
  do 13 (destruct m as [|m]; [reflexivity|]). lia.
Defined.

(** A spot-style call, without any keyword. *)
Lemma download_table_without_instrument_witness :
  kw_instrument (no_kwargs (cell := Z)) = None
  ∧ ∃ st', download_table two_bars QuotesType.others "CBOE" "VIX" None
             no_kwargs connected = (Ret false, st')
           ∧ no_store_update connected st'.
Proof.
  split; [reflexivity|].
  destruct (download_table_without_instrument two_bars QuotesType.others
              "CBOE" "VIX" None no_kwargs connected eq_refl)
    as [(st' & Hrun & Hno & _) _].
  exists st'. split; [exact Hrun|exact Hno].
Defined.

(** The pair USDUSD. *)
Lemma download_currency_symmetric_witness :
  slice 0 3 (Currency.quandl_symbol usdusd)
    = slice 3 6 (Currency.quandl_symbol usdusd)
  ∧ download_currency two_bars usdusd connected = (Ret true, connected).
Proof.
  split; [reflexivity|].
  apply (download_currency_symmetric two_bars usdusd connected). reflexivity.
Defined.

(** C2, at the start of a full download. The walk starts from the text of
    the first contract; when the vendor has no data for it, the year test
    divides that text by 100 and the pass ends in a [TypeError]: the counter
    is not touched, the contract is not downloaded a second time, the label
    is not advanced and the sessions stay open. *)
Lemma full_download_first_failure_raises (fuel : nat) :
  (download_instrument no_data (S fuel) corn false (fresh ∅)).1
  = Raise (TypeError "unsupported operand type(s) for /: 'str' and 'int'")
  ∧ trace (download_instrument no_data (S fuel) corn false (fresh ∅)).2
    = [Connect HistoryConn; Connect LookupConn;
       Log INFO "Downloading contracts for instrument: corn";
       Log INFO "Downloading @CH60 from IQFeed";
       RequestDailyData "@CH60" 765;
       Log WARNING "NoDataError for symbol @CH60"].
Proof. split; by vm_compute. Qed.

(** C5, on an instrument whose IQFeed and Quandl identifiers differ:
    [download_contract] writes the table under the key made of the exchange
    and the IQFeed symbol, [drop_instrument] deletes the key made of the
    Quandl database and the Quandl symbol, and the record written stays. *)
Lemma drop_instrument_misses_download :
  (∃ table, StoreUpdate ("iqfeed", QuotesType.futures, "CBOT_@C") table
              ∈ emitted connected corn_downloaded)
  ∧ emitted corn_downloaded (drop_instrument two_bars corn corn_downloaded).2
    = [StoreDelete ("iqfeed", QuotesType.futures, "CME_C")]
  ∧ download_key corn = ("iqfeed", QuotesType.futures, "CBOT_@C")
  ∧ drop_key corn = ("iqfeed", QuotesType.futures, "CME_C")
  ∧ drop_key corn ≠ download_key corn.
Proof.
  split; [|split; [|split; [|split]]]; try by vm_compute.
  eexists. vm_compute. do 3 apply list_elem_of_further. apply list_elem_of_here.
Qed.

(** C9, with IQFeed not running. The exception of the vendor's [connect]
    leaves [download_instrument] as it is, for the history session and for
    the lookup session alike; it is not a [ConnectionException]. *)
Lemma download_instrument_connection_refused (fuel : nat) (recent : bool) :
  (download_instrument feed_down fuel corn recent (fresh ∅)).1 = Raise refused
  ∧ (download_instrument lookup_down fuel corn recent (fresh ∅)).1
    = Raise refused
  ∧ (∀ msg, refused ≠ ConnectionException msg).
Proof.
  split; [|split].
  - by apply download_instrument_history_refused.
  - by apply download_instrument_lookup_refused.
  - done.
Qed.

(** C10, as the spec states it. A call with a null table returns before
    the mapping is touched: no entry for its column appears. *)
Lemma format_other_null_keeps_mapping :
  ¬ (∀ (column : string) (data : option (frame Z)) (spot : option (Spot.t Z))
       (st : State Z),
       mapping_others (_format_other column data spot st).2 !! column
       = Some "close").
Proof.
  intros Hall. specialize (Hall "VIX Close" None None (fresh ∅)).
  vm_compute in Hall. discriminate Hall.
Qed.

(** Nor does a call whose table cannot have its index reset. *)
Example format_other_reset_failure_keeps_mapping :
  _format_other "VIX Close"
    (Some (Frame None [20200102%Z] [("index", [1%Z]); ("level_0", [2%Z])]))
    None (fresh ∅)
  = (Raise (ValueError "cannot insert level_0, already exists"), fresh ∅).
Proof. reflexivity. Qed.

(** A first call for the column "VIX Close", then one for "Settle". *)
Lemma format_other_extends_mapping_witness :
  reset_index (iloc_reversed (fut_df [one_bar 20200102]))
  = Ret (Frame None [0%Z]
           [("index", [20200102%Z]); ("open", [10%Z]); ("high", [12%Z]);
            ("low", [9%Z]); ("close", [11%Z]); ("volume", [100%Z])])
  ∧ mapping_others
      (format_other_calls
         [("Settle", Some (iloc_reversed (fut_df [one_bar 20200103])), None)]
         (_format_other "VIX Close"
            (Some (iloc_reversed (fut_df [one_bar 20200102]))) None
            (fresh ∅)).2)
      !! "VIX Close" = Some "close".
Proof.
  split; [reflexivity|].
  eapply (format_other_extends_mapping "VIX Close"
            (iloc_reversed (fut_df [one_bar 20200102]))).
  reflexivity.
Defined.

(** The table of zero bars, and the label given as text. *)
Lemma format_future_table_witness :
  price_bars (iloc_reversed (fut_df (cell := Z) []))
  ∧ int_of_label (StrLabel "202012") = Ret 202012%Z
  ∧ _format_future (Some (iloc_reversed (fut_df (cell := Z) []))) corn
      (Some (StrLabel "202012"))
    = Ret (Some (future_table (iloc_reversed (fut_df [])) 202012))
  ∧ column_names (future_table (iloc_reversed (fut_df (cell := Z) [])) 202012)
    = ["date"; "contract"; "close"; "high"; "low"; "open"; "volume"]
  ∧ nrows (future_table (iloc_reversed (fut_df (cell := Z) [])) 202012)
    = 0%nat.
Proof.
  assert (price_bars (iloc_reversed (fut_df (cell := Z) []))) as Hbars.
  { split; [|split; [|split]].
    - intros Hx. vm_compute in Hx.
      repeat (apply elem_of_cons in Hx as [Hx|Hx]; [discriminate Hx|]).
      by apply elem_of_nil in Hx.
    - repeat constructor.
    - vm_compute. lia.
    - repeat constructor. }
  split; [exact Hbars|]. split; [reflexivity|].
  destruct (format_future_table (iloc_reversed (fut_df [])) corn
              (StrLabel "202012") 202012%Z Hbars eq_refl)
    as (_ & Hout & Hnames & Hrows & _).
  split; [exact Hout|]. split; [exact Hnames|exact Hrows].
Defined.

(** ** The further properties at work *)

Import Cases.

(** A currency call, with an instrument among the keywords or not. *)
Lemma download_table_stores_futures_only_witness :
  QuotesType.currency ≠ QuotesType.futures
  ∧ ∃ st',
      download_table two_bars QuotesType.currency "CURRFX" "EURUSD" None
        {| kw_col := None; kw_currency := Some eurusd; kw_spot := None;
           kw_instrument := Some corn; kw_contract := None |} connected
      = (Ret false, st').
Proof.
  split; [discriminate|].
  destruct (download_table_stores_futures_only two_bars QuotesType.currency
              "CURRFX" "EURUSD" None
              {| kw_col := None; kw_currency := Some eurusd; kw_spot := None;
                 kw_instrument := Some corn; kw_contract := None |} connected)
    as (st' & Hrun & _); [discriminate|].
  by exists st'.
Defined.

(** The December 2020 corn contract, downloaded. *)
Lemma download_contract_true_witness :
  download_contract two_bars corn (IntLabel 202012) connected
  = (Ret true, corn_downloaded)
  ∧ ∃ rows out,
      vendor_answer two_bars (api_symbol corn (IntLabel 202012)) connected
      = Ret rows
      ∧ emitted connected corn_downloaded
        = stored_events QuotesType.futures "CME"
            (api_symbol corn (IntLabel 202012)) (download_key corn) (Some out).
Proof.
  assert (download_contract two_bars corn (IntLabel 202012) connected
          = (Ret true, corn_downloaded)) as Hrun by (vm_compute; reflexivity).
  split; [exact Hrun|].
  destruct (download_contract_true two_bars corn (IntLabel 202012) connected
              corn_downloaded Hrun) as (rows & out & _ & Hrows & _ & Hem).
  by exists rows, out.
Defined.

Lemma format_future_rows_witness :
  int_of_label (IntLabel 202012) = Ret 202012%Z
  ∧ _format_future (Some (iloc_reversed (fut_df [one_bar 20200102])))
      corn (Some (IntLabel 202012))
    = Ret (Some (stored_table [one_bar 20200102] 202012)).
Proof.
  split; [reflexivity|].
  apply (format_future_rows [one_bar 20200102] corn (IntLabel 202012) 202012).
  reflexivity.
Defined.

Lemma download_contract_stores_witness :
  hist_conn connected = true
  ∧ vendor_answer two_bars (api_symbol corn (IntLabel 202012)) connected
    = Ret [one_bar 20200102; one_bar 20200103]
  ∧ download_contract two_bars corn (IntLabel 202012) connected
    = (Ret true,
       with_trace
         (trace connected
            ++ stored_events QuotesType.futures "CME"
                 (api_symbol corn (IntLabel 202012)) (download_key corn)
                 (Some (stored_table [one_bar 20200102; one_bar 20200103]
                          202012)))%list
         connected).
Proof.
  split; [reflexivity|]. split; [reflexivity|].
  apply (download_contract_stores two_bars corn (IntLabel 202012) 202012
           [one_bar 20200102; one_bar 20200103] connected);
    reflexivity.
Defined.

(** The table of zero bars has the bar columns and no date column. *)
Lemma format_future_succeeds_iff_witness :
  int_of_label (IntLabel 202012) = Ret 202012%Z
  ∧ ∃ out, _format_future (Some (iloc_reversed (fut_df (cell := Z) []))) corn
             (Some (IntLabel 202012)) = Ret (Some out).
Proof.
  split; [reflexivity|].
  apply (format_future_succeeds_iff (iloc_reversed (fut_df [])) corn
           (IntLabel 202012) 202012 eq_refl).
  destruct (fut_df_bar_table (cell := Z) []) as (_ & Hdate & Hsub & _).
  by split.
Defined.

(** After "VIX Close" was formatted, formatting "Settle" returns both
    series as close. *)
Lemma format_other_leak_shows_witness :
  "VIX Close" ≠ "Settle"
  ∧ mapping_others after_vix !! "VIX Close" = Some "close"
  ∧ _format_other "Settle" (Some two_series) None after_vix
    = (Ret (Some (Frame None [0; 1]%Z
                    [("date", [20200102; 20200103]%Z);
                     ("close", [14; 15]%Z); ("close", [21; 22]%Z)])),
       (_format_other "Settle" (Some two_series) None after_vix).2)
  ∧ (2 ≤ length
           (columns_named "close"
              (Frame None [0; 1]%Z
                 [("date", [20200102; 20200103]%Z);
                  ("close", [14; 15]%Z); ("close", [21; 22]%Z)])))%nat.
Proof.
  assert (_format_other "Settle" (Some two_series) None after_vix
          = (Ret (Some (Frame None [0; 1]%Z
                          [("date", [20200102; 20200103]%Z);
                           ("close", [14; 15]%Z); ("close", [21; 22]%Z)])),
             (_format_other "Settle" (Some two_series) None after_vix).2))
    as Hrun by (vm_compute; reflexivity).
  assert (mapping_others after_vix !! "VIX Close" = Some "close") as Hmap
    by (vm_compute; reflexivity).
  split; [discriminate|]. split; [exact Hmap|]. split; [exact Hrun|].
  eapply (format_other_leak_shows "VIX Close" "Settle" two_series None
            after_vix);
    [discriminate|exact Hmap| | |exact Hrun];
    unfold column_names, two_series; cbn;
    repeat first [apply list_elem_of_here | apply list_elem_of_further].
Defined.


(** Three contracts that download: the walk goes on. *)
Lemma walk_goes_on_uncounted_witness :
  outcomes two_bars 3 corn (IntLabel 202001) connected
  = (Ret [Downloaded; Downloaded; Downloaded],
     (outcomes two_bars 3 corn (IntLabel 202001) connected).2)
  ∧ walk two_bars 3 corn (IntLabel 202001) 0 connected
    = (Ret None, (outcomes two_bars 3 corn (IntLabel 202001) connected).2).
Proof.
  assert (outcomes two_bars 3 corn (IntLabel 202001) connected
          = (Ret [Downloaded; Downloaded; Downloaded],
             (outcomes two_bars 3 corn (IntLabel 202001) connected).2))
    as Hos by (vm_compute; reflexivity).
  split; [exact Hos|].
  apply (walk_goes_on_uncounted two_bars 3 corn (IntLabel 202001) connected
           _ _ Hos).
  repeat constructor; discriminate.
Defined.

Lemma refresh_without_roll_progression_witness :
  Instrument.roll_progression unlisted = []
  ∧ (download_instrument two_bars 5 unlisted true (fresh ∅)).1
    = Raise (IndexError "single positional indexer is out-of-bounds").
Proof.
  split; [reflexivity|].
  by rewrite (refresh_without_roll_progression two_bars 5 unlisted (fresh ∅)
                eq_refl eq_refl eq_refl).
Defined.

Lemma full_download_first_contract_missing_witness :
  vendor_answer no_data
    (api_symbol corn (StrLabel (pretty (Instrument.first_contract corn))))
    (walk_start_state corn (fresh ∅))
  = Raise NoDataError
  ∧ sessions (emitted (fresh ∅)
                (download_instrument no_data 1 corn false (fresh ∅)).2)
    = [Connect HistoryConn; Connect LookupConn].
Proof.
  split; [reflexivity|].
  apply (full_download_first_contract_missing no_data 0 corn (fresh ∅)
           NoDataError eq_refl eq_refl eq_refl).
Defined.

(** A refresh of corn without data: six contracts of 2019 that do not
    count, thirteen of 2020 and 2021 that do. *)
Lemma download_instrument_returns_witness :
  walk_start corn true = Ret (IntLabel 201907)
  ∧ outcomes no_data 19 corn (IntLabel 201907) (walk_start_state corn (fresh ∅))
    = (Ret (replicate 6 (Missing false) ++ replicate 13 (Missing true))%list,
       (outcomes no_data 19 corn (IntLabel 201907)
          (walk_start_state corn (fresh ∅))).2)
  ∧ (download_instrument no_data 19 corn true (fresh ∅)).1 = Ret (Some true).
Proof.
  assert (outcomes no_data 19 corn (IntLabel 201907)
            (walk_start_state corn (fresh ∅))
          = (Ret (replicate 6 (Missing false)
                    ++ replicate 13 (Missing true))%list,
             (outcomes no_data 19 corn (IntLabel 201907)
                (walk_start_state corn (fresh ∅))).2))
    as Hos by (vm_compute; reflexivity).
  split; [reflexivity|]. split; [exact Hos|].
  rewrite (download_instrument_returns no_data 19 corn true (fresh ∅)
             (IntLabel 201907) 19 _ _ eq_refl eq_refl eq_refl Hos);
    [reflexivity| |reflexivity|reflexivity|lia].
  split; [reflexivity|]. intros m Hm.
  do 19 (destruct m as [|m]; [reflexivity|]). lia.
Defined.

Lemma download_contract_store_failure_witness :
  store_update_reply store_down (download_key corn)
    (Some (stored_table [one_bar 20200102; one_bar 20200103] 202012))
    (trace connected
       ++ [Log INFO ("Downloading " +:+ api_symbol corn (IntLabel 202012)
                       +:+ " from IQFeed");
           RequestDailyData (api_symbol corn (IntLabel 202012)) (255 * 3)%Z;
           Log INFO ("Finished downloading "
                       +:+ api_symbol corn (IntLabel 202012)
                       +:+ " from IQFeed")])%list
  = Raise store_full
  ∧ (download_contract store_down corn (IntLabel 202012) connected).1
    = Ret false.
Proof.
  split; [reflexivity|].
  by rewrite (download_contract_store_failure store_down corn
                (IntLabel 202012) 202012
                [one_bar 20200102; one_bar 20200103] connected store_full
                eq_refl eq_refl eq_refl eq_refl).
Defined.

(** A fresh provider asked for a spot series. *)
Lemma download_table_unconnected_witness :
  hist_conn (fresh ∅) = false
  ∧ (download_spot two_bars vix (fresh ∅)).1 = Ret false.
Proof.
  split; [reflexivity|]. unfold download_spot.
  by rewrite (download_table_unconnected two_bars QuotesType.others "CBOE"
                "VIX" None _ (fresh ∅) eq_refl).
Defined.

(** ** Tables that the futures formatter does not take *)

(** C7, as the spec states it. Not every non-null table is formatted: of
    an empty DataFrame no table comes back at all, the selection of the
    columns raises. *)
Lemma format_future_any_table_fails :
  ¬ (∀ (df : frame Z) (instrument : Instrument.t) (c : label) (k : Z),
       well_formed df →
       int_of_label c = Ret k →
       ∃ out,
         _format_future (Some df) instrument (Some c) = Ret (Some out)
         ∧ column_names out
           = ["date"; "contract"; "close"; "high"; "low"; "open"; "volume"]
         ∧ nrows out = nrows df
         ∧ (∀ v, ("contract", v) ∈ columns out →
              v = replicate (nrows df) (int_cell k))).
Proof.
  intros Hall.
  destruct (Hall no_columns corn (IntLabel 202012) 202012%Z)
    as (out & Hout & _); [by constructor|reflexivity|].
  vm_compute in Hout. discriminate Hout.
Qed.

(** What the formatter does with the three tables: the first has no
    close column to select, the second cannot take its index as a second
    date column, and of the third both close columns are selected, which
    makes eight columns. *)
Example format_future_no_columns :
  _format_future (Some no_columns) corn (Some (IntLabel 202012))
  = Raise (KeyError "close").
Proof. reflexivity. Qed.

Example format_future_dated :
  well_formed dated
  ∧ _format_future (Some dated) corn (Some (IntLabel 202012))
    = Raise (ValueError "cannot insert date, already exists").
Proof. split; [by repeat constructor|reflexivity]. Qed.

Example format_future_two_closes :
  well_formed two_closes
  ∧ ∃ out,
      _format_future (Some two_closes) corn (Some (IntLabel 202012))
      = Ret (Some out)
      ∧ column_names out
        = ["date"; "contract"; "close"; "close"; "high"; "low"; "open";
           "volume"].
Proof. split; [by repeat constructor|]. eexists. split; reflexivity. Qed.
